(** * py_voat.classes: entities of the Voat client and their lazy relations

    A shallow embedding of [py_voat/classes.py]: the [AuthToken] holder with
    its expiry check, and the attribute-bag entities [Submission],
    [Subverse] and [Comment] with their [from_dict] factories and their
    memoised relations ([comments], [posts], [parent], [children]).

    Conventions of the embedding.
    - Python objects live in a heap; a reference carries the class of the
      object it points to. Lists are heap objects too, so that "the same
      list" is "the same address".
    - A method is a function in a state-and-exception monad over the heap.
    - The characters of a [str] value are code points below 256 (an
      [ascii] is read as its code point). The numbers of a payload and of
      an entity are the integers ([bool] being a kind of [int], as in
      Python); the floats that a JSON payload may hold are left out.
    - Clock readings of [time.time()] are binary64 floats, as specified by
      [SpecFloat] with a precision of 53 bits and a largest exponent of
      1024; sums and comparisons of clock readings round and overflow as
      the interpreter's do.
    - The API handle ([py_voat.Voat]) and [datetime.strptime] are defined
      outside [classes.py]; they are parameters of the development. *)

From Stdlib Require Import ZArith QArith Ascii String List Bool Lia SpecFloat.
From stdpp Require Import gmap strings list.

Open Scope string_scope.

(** ** Values, exceptions, results *)

Abbreviation loc := positive.

Inductive cls := Submission | Subverse | Comment.

Inductive value :=
| VNone
| VBool (b : bool)
| VInt (n : Z)
| VStr (s : string)
| VList (l : loc)
| VObj (c : cls) (l : loc)
| VVoat.

Inductive exn :=
| KeyError (key : string)
| AttributeError (name : string)
| TypeError
| ValueError
| RecursionError
| OverflowError
| VoatBadExpiry
| VoatExpiredToken
| ApiError (code : nat).

Inductive result (A : Type) :=
| Ok (a : A)
| Raise (e : exn).

Arguments Ok {A} a.
Arguments Raise {A} e.

#[global] Instance cls_eq_dec : EqDecision cls.
Proof. solve_decision. Defined.

#[global] Instance value_eq_dec : EqDecision value.
Proof. solve_decision. Defined.

(** [x is None] *)
Definition is_none (v : value) : bool :=
  match v with VNone => true | _ => false end.

(** [isinstance(v, int)]: [bool] is a subclass of [int]. *)
Definition isinstance_int (v : value) : bool :=
  match v with VInt _ | VBool _ => true | _ => false end.

(** The integer an [int] (or [bool]) value stands for. *)
Definition as_int (v : value) : option Z :=
  match v with
  | VInt n => Some n
  | VBool b => Some (if b then 1 else 0)%Z
  | _ => None
  end.

(** ** Strings: [str.isdigit], [int(str)], [str.split(".")[0]] *)

(** A decimal digit, [0] to [9]. *)
Definition is_digit_char (c : ascii) : bool :=
  (48 <=? nat_of_ascii c)%nat && (nat_of_ascii c <=? 57)%nat.

(** The other characters below 256 that [str.isdigit] accepts: the
    superscripts two, three and one. They are digits, not decimals:
    [int] does not read them. *)
Definition is_superscript_digit (c : ascii) : bool :=
  (nat_of_ascii c =? 178)%nat || (nat_of_ascii c =? 179)%nat
  || (nat_of_ascii c =? 185)%nat.

Definition digit_of_char (c : ascii) : Z :=
  Z.of_nat (nat_of_ascii c) - 48.

(** All characters are decimal digits. *)
Fixpoint all_digits (s : string) : bool :=
  match s with
  | EmptyString => true
  | String c s' => is_digit_char c && all_digits s'
  end.

Fixpoint all_isdigit (s : string) : bool :=
  match s with
  | EmptyString => true
  | String c s' => (is_digit_char c || is_superscript_digit c) && all_isdigit s'
  end.

(** [s.isdigit()]: at least one character, and all of them digits. *)
Definition isdigit (s : string) : bool :=
  match s with
  | EmptyString => false
  | String _ _ => all_isdigit s
  end.

Fixpoint int_acc (acc : Z) (s : string) : Z :=
  match s with
  | EmptyString => acc
  | String c s' => int_acc (10 * acc + digit_of_char c) s'
  end.

(** [int(s)] for a string that passed [isdigit]: the decimal digits are
    read left to right; [ValueError] when a character is not a decimal
    digit, and when the string is longer than [max_str_digits], the limit
    that interpreters from version 3.11 on put on such conversions
    ([None] when there is no limit). *)
Definition py_int (max_str_digits : option nat) (s : string) : result Z :=
  match s with
  | EmptyString => Raise ValueError
  | String _ _ =>
      if negb (all_digits s) then Raise ValueError
      else match max_str_digits with
           | Some n => if (n <? String.length s)%nat then Raise ValueError
                       else Ok (int_acc 0 s)
           | None => Ok (int_acc 0 s)
           end
  end.

(** The value of a digit string in positional notation: the digit at
    distance [i] from the right end counts [10 ^ i]. *)
Fixpoint decimal_value (s : string) : Z :=
  match s with
  | EmptyString => 0
  | String c s' => digit_of_char c * 10 ^ Z.of_nat (String.length s') + decimal_value s'
  end.

(** [s.split(".")[0]]: the text before the first dot. *)
Fixpoint split_head (s : string) : string :=
  match s with
  | EmptyString => EmptyString
  | String c s' => if Ascii.eqb c "."%char then EmptyString else String c (split_head s')
  end.

(** ** Binary64 arithmetic *)

(** [x + y] on floats. *)
Definition float_add (x y : spec_float) : spec_float := SFadd 53 1024 x y.

(** [x <= y] on floats; false when one of them is not a number. *)
Definition float_le (x y : spec_float) : bool := SFleb x y.

(** The conversion of an [int] that takes part in float arithmetic:
    rounded to the nearest float, [OverflowError] ([None] here) when that
    is beyond the largest float. *)
Definition float_of_int (n : Z) : option spec_float :=
  match binary_normalize 53 1024 n 0 false with
  | S754_infinity _ => None
  | f => Some f
  end.

(** ** AuthToken *)

Record AuthToken := mkAuthToken {
  username : value;
  expiry_date : value;
  gotten_at : spec_float;
  token_type : value;
  _token : value
}.

(** [AuthToken.__init__]; [now] is the reading of [time.time()]. *)
Definition AuthToken_init (max_str_digits : option nat)
    (username token token_type expiry_date : value) (now : spec_float)
  : result AuthToken :=
  let converted :=
    match expiry_date with
    | VStr s =>
        if isdigit s then
          match py_int max_str_digits s with
          | Ok n => Ok (VInt n)
          | Raise e => Raise e
          end
        else Ok expiry_date
    | _ => Ok expiry_date
    end in
  match converted with
  | Raise e => Raise e
  | Ok expiry_date =>
      if negb (isinstance_int expiry_date) then Raise VoatBadExpiry
      else Ok {| username := username;
                 expiry_date := expiry_date;
                 gotten_at := now;
                 token_type := token_type;
                 _token := token |}
  end.

(** The [token] property; [now] is the reading of [time.time()]. *)
Definition AuthToken_token (self : AuthToken) (now : spec_float) : result value :=
  match as_int (expiry_date self) with
  | None => Raise TypeError
  | Some e =>
      match float_of_int e with
      | None => Raise OverflowError
      | Some d =>
          if float_le (float_add (gotten_at self) d) now
          then Raise VoatExpiredToken
          else Ok (_token self)
      end
  end.

(** ** The heap *)

Inductive object :=
| OInst (attrs : gmap string value)
| OList (items : list value).

(** [remote] stands for whatever the remote service and the HTTP session
    hold; only the API handle reads or changes it. *)
Record world := World {
  heap : gmap positive object;
  remote : nat
}.

(** The instance dictionary of the object at [l]. *)
Definition attrs_of (l : loc) (w : world) : gmap string value :=
  match heap w !! l with
  | Some (OInst a) => a
  | _ => ∅
  end.

(** The elements of the list at [l]. *)
Definition items_of (l : loc) (w : world) : list value :=
  match heap w !! l with
  | Some (OList xs) => xs
  | _ => []
  end.

(** Plain attribute assignment, [obj.__dict__[k] = v]. *)
Definition store_attr (l : loc) (k : string) (v : value) (w : world) : world :=
  {| heap := <[l := OInst (<[k := v]> (attrs_of l w))]> (heap w);
     remote := remote w |}.

(** The address of the next allocated object. *)
Definition next_loc (w : world) : loc := fresh (dom (heap w)).

Definition alloc (o : object) (w : world) : loc * world :=
  let l := next_loc w in
  (l, {| heap := <[l := o]> (heap w); remote := remote w |}).

(** [getattr(v, k, d)] for a data attribute [k]. *)
Definition attr_or (v : value) (k : string) (d : value) (w : world) : value :=
  match v with
  | VObj _ l => default d (attrs_of l w !! k)
  | _ => d
  end.

(** [bool(v)] *)
Definition truthy (w : world) (v : value) : bool :=
  match v with
  | VNone => false
  | VBool b => b
  | VInt n => negb (n =? 0)%Z
  | VStr s => negb (String.eqb s "")
  | VList l => match items_of l w with [] => false | _ => true end
  | VObj _ _ => true
  | VVoat => true
  end.

(** [a == b]. Numbers compare by value, strings by content, entities and
    the handle by identity (no class defines [__eq__]), lists element by
    element with the identity shortcut of [list.__eq__]. [fuel] bounds the
    nesting depth, as the interpreter's recursion limit does. *)
Fixpoint py_eq (fuel : nat) (w : world) (a b : value) {struct fuel} : option bool :=
  if decide (a = b) then Some true
  else match a, b with
       | VList la, VList lb =>
           match fuel with
           | O => None
           | S fuel' =>
               let xs := items_of la w in
               let ys := items_of lb w in
               if negb (length xs =? length ys)%nat then Some false
               else (fix go (xs ys : list value) : option bool :=
                       match xs, ys with
                       | x :: xs', y :: ys' =>
                           match py_eq fuel' w x y with
                           | Some true => go xs' ys'
                           | r => r
                           end
                       | _, _ => Some true
                       end) xs ys
           end
       | _, _ =>
           match as_int a, as_int b with
           | Some m, Some n => Some (m =? n)%Z
           | _, _ => Some false
           end
       end.

Definition recursion_limit : nat := 1000.

(** [a - b] on the values of the model, whose numbers are the integers
    and the booleans. *)
Definition py_sub (a b : value) : result value :=
  match as_int a, as_int b with
  | Some m, Some n => Ok (VInt (m - n))
  | _, _ => Raise TypeError
  end.

(** ** The API handle

    [py_voat.Voat] is not part of [classes.py]. Its three fetch operations
    may read and change the heap and the remote state, and return a value
    or raise. *)
Record Voat := mkVoat {
  fetch_comments : value -> value -> world -> result value * world;
  get_subverse_posts : value -> world -> result value * world;
  get_comment : value -> world -> result value * world
}.

(** A fetch performed through the handle, with its arguments. *)
Inductive call :=
| CallFetchComments (post_id subverse : value)
| CallGetSubversePosts (name : value)
| CallGetComment (comment_id : value).

(** The program state: the heap and remote service, and the fetches
    performed so far, oldest first. *)
Record state := State {
  wld : world;
  calls : list call
}.

(** ** The monad of methods *)

Definition M (A : Type) : Type := state -> result A * state.

Definition ret {A} (a : A) : M A := fun s => (Ok a, s).

Definition raise {A} (e : exn) : M A := fun s => (Raise e, s).

Definition bind {A B} (m : M A) (f : A -> M B) : M B :=
  fun s => match m s with
           | (Ok a, s') => f a s'
           | (Raise e, s') => (Raise e, s')
           end.

(** [try: m except: h], with a bare [except] clause. *)
Definition try_except {A} (m : M A) (h : M A) : M A :=
  fun s => match m s with
           | (Ok a, s') => (Ok a, s')
           | (Raise _, s') => h s'
           end.

Definition lift {A} (r : result A) : M A := fun s => (r, s).

Definition gets {A} (f : world -> A) : M A := fun s => (Ok (f (wld s)), s).

Definition modify (f : world -> world) : M unit :=
  fun s => (Ok tt, {| wld := f (wld s); calls := calls s |}).

Notation "'let!' x ':=' m 'in' k" := (bind m (fun x => k))
  (at level 10, x name, m at level 100, k at level 200).
Notation "'exec' m 'in' k" := (bind m (fun _ => k))
  (at level 10, m at level 100, k at level 200).

(** [getattr(self, k, d)] *)
Definition getattr (self : loc) (k : string) (d : value) : M value :=
  gets (fun w => default d (attrs_of self w !! k)).

(** [self.k] for a data attribute. *)
Definition getfield (self : loc) (k : string) : M value :=
  let! a := gets (fun w => attrs_of self w !! k) in
  match a with
  | Some v => ret v
  | None => raise (AttributeError k)
  end.

Definition store (self : loc) (k : string) (v : value) : M unit :=
  modify (store_attr self k v).

(** A list display: a new list object. *)
Definition new_list (xs : list value) : M value :=
  fun s => let '(l, w) := alloc (OList xs) (wld s) in
           (Ok (VList l), {| wld := w; calls := calls s |}).

(** [iter(v)]: the elements a [for] clause runs over. *)
Definition iterate (v : value) : M (list value) :=
  match v with
  | VList l => gets (items_of l)
  | VStr s => ret ((fun c => VStr (String c EmptyString)) <$> list_ascii_of_string s)
  | _ => raise TypeError
  end.

(** What [self.voat.name] evaluates to before it is called. *)
Inductive callee := Handle | NotCallable.

Definition get_method (v : value) (name : string) : M callee :=
  match v with
  | VVoat => ret Handle
  | VObj _ l =>
      let! a := gets (fun w => attrs_of l w !! name) in
      match a with
      | Some _ => ret NotCallable
      | None => raise (AttributeError name)
      end
  | _ => raise (AttributeError name)
  end.

(** The call itself; a call that reaches the handle is recorded. *)
Definition invoke (f : callee) (c : call) (op : world -> result value * world) : M value :=
  match f with
  | Handle => fun s => let '(r, w) := op (wld s) in
                       (r, {| wld := w; calls := calls s ++ [c] |})
  | NotCallable => raise TypeError
  end.

(** ** JSON payloads

    The decoded response body: a dictionary from field names to values. *)

(** [json_data.get(k, d)] *)
Definition dict_get (json_data : gmap string value) (k : string) (d : value) : value :=
  default d (json_data !! k).

(** [json_data[k]] *)
Definition dict_index (json_data : gmap string value) (k : string) : M value :=
  match json_data !! k with
  | Some v => ret v
  | None => raise (KeyError k)
  end.

(** ** Entities *)

(** [setattr(self, k, v)] on an instance of class [c]. The names
    [__class__] and [__dict__] take a class and a dictionary only, which no
    value here is, and [__weakref__] cannot be written. [Submission.comments]
    and [Subverse.posts] are properties with a setter, [Comment.parent] and
    [Comment.children] are properties without one. Any other name is stored
    in the instance dictionary. *)
Definition setattr (c : cls) (self : loc) (k : string) (v : value) : M unit :=
  if String.eqb k "__class__" || String.eqb k "__dict__" then raise TypeError
  else if String.eqb k "__weakref__" then raise (AttributeError k)
  else
    match c with
    | Submission =>
        if String.eqb k "comments" then store self "_comments" v else store self k v
    | Subverse =>
        if String.eqb k "posts" then store self "_posts" v else store self k v
    | Comment =>
        if String.eqb k "parent" || String.eqb k "children"
        then raise (AttributeError k)
        else store self k v
    end.

(** [VoatObject.__init__]: one [setattr] per keyword argument, in order. *)
Fixpoint VoatObject_init (c : cls) (self : loc) (kwargs : list (string * value)) : M unit :=
  match kwargs with
  | [] => ret tt
  | (k, v) :: rest => exec setattr c self k v in VoatObject_init c self rest
  end.

(** A keyword argument named [self] cannot be passed to [__init__], whose
    first parameter has that name. *)
Definition has_self (kwargs : list (string * value)) : bool :=
  existsb (fun kv => String.eqb (fst kv) "self") kwargs.

(** A call of the class with keyword arguments: a new instance, set up by
    the class's [__init__]; [Submission.__init__] clears the comments cell
    last. *)
Definition construct (c : cls) (kwargs : list (string * value)) : M value :=
  fun s =>
    let '(self, w) := alloc (OInst ∅) (wld s) in
    (if has_self kwargs then raise TypeError
     else
       exec VoatObject_init c self kwargs in
       exec (match c with
             | Submission => store self "_comments" VNone
             | _ => ret tt
             end) in
       ret (VObj c self)) {| wld := w; calls := calls s |}.

Section Entities.

(** The API handle behind every [VVoat] reference. *)
Variable api : Voat.

(** [datetime.strptime(s, "%Y-%m-%dT%H:%M:%S")] parses [s], or raises
    [ValueError]. *)
Variable strptime : string -> bool.

(** [date.split(".")[0]] followed by [datetime.strptime]; the parsed
    date is dropped. *)
Definition check_date (date : value) : M unit :=
  match date with
  | VStr s => if strptime (split_head s) then ret tt else raise ValueError
  | VObj _ l =>
      let! a := gets (fun w => attrs_of l w !! "split") in
      match a with
      | Some _ => raise TypeError
      | None => raise (AttributeError "split")
      end
  | _ => raise (AttributeError "split")
  end.

Definition Submission_from_dict (json_data : gmap string value) (voat_instance : value)
  : M value :=
  let! t := gets (fun w => truthy w (dict_get json_data "date" VNone)) in
  let date := if t then dict_get json_data "date" VNone else VNone in
  exec (if negb (is_none date) then check_date date else ret tt) in
  let! is_url := gets (fun w => truthy w (dict_get json_data "url" VNone)) in
  construct Submission
    [ ("title", dict_get json_data "title" (VStr ""));
      ("content", dict_get json_data "content" (VStr ""));
      ("comments", VNone);
      ("author", dict_get json_data "userName" (VStr ""));
      ("post_id", dict_get json_data "id" (VInt (-1)));
      ("subverse", dict_get json_data "subverse" (VStr ""));
      ("karma", dict_get json_data "upVotes" (VInt (-1)));
      ("views", dict_get json_data "views" (VInt (-1)));
      ("date", date);
      ("voat", voat_instance);
      ("is_url", VBool is_url) ].

(** The [comments] property. *)
Definition Submission_comments (self : loc) : M value :=
  let! cached := getattr self "_comments" VNone in
  exec (if is_none cached then
          let! voat := getattr self "voat" VNone in
          if negb (is_none voat) then
            let! f := get_method voat "fetch_comments" in
            let! post_id := getattr self "post_id" (VInt 0) in
            let! subverse := getattr self "subverse" VNone in
            let! r := invoke f (CallFetchComments post_id subverse)
                             (fetch_comments api post_id subverse) in
            store self "_comments" r
          else
            let! r := new_list [] in
            store self "_comments" r
        else ret tt) in
  getfield self "_comments".

Definition Subverse_from_dict (json_data : gmap string value) (voat_instance : value)
  : M value :=
  let date := dict_get json_data "creationDate" VNone in
  construct Subverse
    [ ("title", dict_get json_data "title" (VStr ""));
      ("name", dict_get json_data "name" (VStr ""));
      ("nsfw", dict_get json_data "ratedAdult" VNone);
      ("sidebar", dict_get json_data "sidebar" (VStr ""));
      ("date", date);
      ("voat", voat_instance);
      ("subscribers", dict_get json_data "subscriberCount" (VInt (-1)));
      ("description", dict_get json_data "description" (VStr "")) ].

(** The [posts] property. *)
Definition Subverse_posts (self : loc) : M value :=
  let! cached := getattr self "_posts" VNone in
  exec (if is_none cached then
          let! voat := getattr self "voat" VNone in
          if negb (is_none voat) then
            let! f := get_method voat "get_subverse_posts" in
            let! name := getfield self "name" in
            let! r := invoke f (CallGetSubversePosts name) (get_subverse_posts api name) in
            store self "_posts" r
          else
            let! r := new_list [] in
            store self "_posts" r
        else ret tt) in
  getfield self "_posts".

Definition Comment_from_dict (json_data : gmap string value) (voat_instance : value)
  : M value :=
  let! date := dict_index json_data "date" in
  let! comment_id := dict_index json_data "id" in
  let! content := dict_index json_data "content" in
  let! up := dict_index json_data "upVotes" in
  let! down := dict_index json_data "downVotes" in
  let! karma := lift (py_sub up down) in
  let! subverse := dict_index json_data "subverse" in
  let! author := dict_index json_data "userName" in
  let! parent_id := dict_index json_data "parentID" in
  let! submission_id := dict_index json_data "submissionID" in
  construct Comment
    [ ("voat", voat_instance);
      ("comment_id", comment_id);
      ("date", date);
      ("content", content);
      ("karma", karma);
      ("subverse", subverse);
      ("author", author);
      ("parent_id", parent_id);
      ("submission_id", submission_id) ].

(** The [parent] property. *)
Definition Comment_parent (self : loc) : M value :=
  let! cached := getattr self "_parent" VNone in
  exec (if is_none cached then
          let! voat := getattr self "voat" VNone in
          let! parent_id := getattr self "parent_id" VNone in
          if negb (is_none voat) && negb (is_none parent_id) then
            try_except
              (let! f := get_method voat "get_comment" in
               let! pid := getfield self "parent_id" in
               let! r := invoke f (CallGetComment pid) (get_comment api pid) in
               store self "_parent" r)
              (let! r := construct Comment [] in
               store self "_parent" r)
          else
            let! r := construct Comment [] in
            store self "_parent" r
        else ret tt) in
  getfield self "_parent".

(** [[i for i in comments if getattr(i, "parent_id", None) == self.comment_id]] *)
Fixpoint children_of (self : loc) (comments : list value) : M (list value) :=
  match comments with
  | [] => ret []
  | i :: rest =>
      let! pid := gets (attr_or i "parent_id" VNone) in
      let! cid := getfield self "comment_id" in
      let! eq := gets (fun w => py_eq recursion_limit w pid cid) in
      match eq with
      | None => raise RecursionError
      | Some b =>
          let! tl := children_of self rest in
          ret (if b then i :: tl else tl)
      end
  end.

(** The [children] property. *)
Definition Comment_children (self : loc) : M value :=
  let! cached := getattr self "_children" VNone in
  exec (if is_none cached then
          let! submission_id := getattr self "submission_id" VNone in
          let! voat := getattr self "voat" VNone in
          if negb (is_none submission_id) && negb (is_none voat) then
            let! f := get_method voat "fetch_comments" in
            let! sid := getfield self "submission_id" in
            let! subverse := getattr self "subverse" VNone in
            let! comments := invoke f (CallFetchComments sid subverse)
                                    (fetch_comments api sid subverse) in
            let! items := iterate comments in
            let! kept := children_of self items in
            let! r := new_list kept in
            store self "_children" r
          else
            let! r := new_list [] in
            store self "_children" r
        else ret tt) in
  getfield self "_children".

End Entities.

(** ** Vocabulary of the specification *)

(** An integer expiry value ([bool] included, as for [isinstance]). *)
Definition is_integer (v : value) : Prop := isinstance_int v = true.

(** A string made of the decimal digits [0] to [9] only, and of at least
    one. *)
Definition is_digit_string (v : value) : Prop :=
  exists s, v = VStr s /\ s <> "" /\ all_digits s = true.

(** A string that [str.isdigit] accepts. *)
Definition passes_isdigit (v : value) : Prop :=
  exists s, v = VStr s /\ isdigit s = true.

(** The string is within the limit on conversions to [int]. *)
Definition within_limit (max_str_digits : option nat) (s : string) : Prop :=
  match max_str_digits with
  | Some n => (String.length s <= n)%nat
  | None => True
  end.

(** The number a float stands for, when it stands for one. *)
Definition float_value (f : spec_float) : option Q :=
  match f with
  | S754_zero _ => Some 0%Q
  | S754_finite s m e =>
      Some ((if s then -1 else 1) * inject_Z (Zpos m) * Qpower 2 e)%Q
  | _ => None
  end.

(** Expiry at the exact instant: for a token acquired at the instant [g]
    with an expiry of [n] seconds and read at the instant [q], the read
    raises [VoatExpiredToken] exactly when [g + n <= q] and returns the
    token before. *)
Definition expires_at_exact_instant (tok : AuthToken) (now : spec_float) : Prop :=
  forall g q n,
    float_value (gotten_at tok) = Some g ->
    float_value now = Some q ->
    as_int (expiry_date tok) = Some n ->
    (AuthToken_token tok now = Raise VoatExpiredToken <-> (g + inject_Z n <= q)%Q) /\
    ((q < g + inject_Z n)%Q -> AuthToken_token tok now = Ok (_token tok)).

(** The common shape of the four lazy properties: look at the cell; if it
    holds nothing (or [None]) run [resolve], which fills it; return what
    the cell holds. *)
Definition lazy_cell (cell : string) (resolve : M unit) (self : loc) : M value :=
  let! cached := getattr self cell VNone in
  exec (if is_none cached then resolve else ret tt) in
  getfield self cell.

(** The names that no keyword argument of a constructor may have. *)
Definition reserved_name (k : string) : bool :=
  String.eqb k "self" || String.eqb k "__class__" || String.eqb k "__dict__"
  || String.eqb k "__weakref__".

(** The instance-dictionary key that a keyword argument is stored under,
    if the constructor accepts it. *)
Definition attr_slot (c : cls) (k : string) : option string :=
  if reserved_name k then None
  else
    match c with
    | Submission => Some (if String.eqb k "comments" then "_comments" else k)
    | Subverse => Some (if String.eqb k "posts" then "_posts" else k)
    | Comment => if String.eqb k "parent" || String.eqb k "children" then None else Some k
    end.

(** The instance dictionary after [VoatObject.__init__], started from [a]. *)
Fixpoint init_bag (c : cls) (kwargs : list (string * value)) (a : gmap string value)
  : option (gmap string value) :=
  match kwargs with
  | [] => Some a
  | (k, v) :: rest =>
      match attr_slot c k with
      | Some k' => init_bag c rest (<[k' := v]> a)
      | None => None
      end
  end.

(** What the class's own [__init__] adds after [VoatObject.__init__]. *)
Definition finish_bag (c : cls) (a : gmap string value) : gmap string value :=
  match c with
  | Submission => <["_comments" := VNone]> a
  | _ => a
  end.

(** The state in which the object at [l] is [o]. *)
Definition with_object (l : loc) (o : object) (s : state) : state :=
  {| wld := {| heap := <[l := o]> (heap (wld s)); remote := remote (wld s) |};
     calls := calls s |}.

(** A cell that holds nothing yet. *)
Definition unresolved (cell : string) (self : loc) (s : state) : Prop :=
  default VNone (attrs_of self (wld s) !! cell) = VNone.

(** [v] is a list created between [s] and [s1], and is empty in [s1]. *)
Definition fresh_empty_list (s s1 : state) (v : value) : Prop :=
  exists l, v = VList l /\ heap (wld s) !! l = None /\
            heap (wld s1) !! l = Some (OList []).

(** [v] is a [Comment] created between [w] and [s1] that has no attribute
    in [s1]: the result of [Comment()]. *)
Definition fresh_placeholder (w : world) (s1 : state) (v : value) : Prop :=
  exists l, v = VObj Comment l /\ heap w !! l = None /\
            heap (wld s1) !! l = Some (OInst ∅).

(** Memoisation, for one access path and one start state: whatever the
    first access returns, the second returns the same and leaves the
    state, and with it the record of fetches, as it was. *)
Definition memoised (access : loc -> M value) (self : loc) (s : state) : Prop :=
  forall v s1, access self s = (Ok v, s1) -> access self s1 = (Ok v, s1).

(** Memoisation of results other than [None]. *)
Definition memoised_unless_none (access : loc -> M value) (self : loc) (s : state) : Prop :=
  forall v s1, access self s = (Ok v, s1) -> v <> VNone -> access self s1 = (Ok v, s1).

(** Equality of two ids, neither of which is a list: the same value, or
    the same number. *)
Definition same_id (a b : value) : bool :=
  if decide (a = b) then true
  else match as_int a, as_int b with
       | Some m, Some n => (m =? n)%Z
       | _, _ => false
       end.

(** The object at [l] exists. *)
Definition allocated (l : loc) (w : world) : bool :=
  match heap w !! l with
  | Some _ => true
  | None => false
  end.

(** ** Sample clock readings, handles, payloads and states *)

(** The clock reading of a whole number of seconds. *)
Definition seconds (n : Z) : spec_float := binary_normalize 53 1024 n 0 false.

(** The clock reading written [n / 10] in decimal, as the float literal
    [100.1] is for [n = 1001]. *)
Definition tenths (n : Z) : spec_float := SFdiv 53 1024 (seconds n) (seconds 10).

(** The one-character string of the superscript two. *)
Definition superscript_two : string := String (ascii_of_nat 178) EmptyString.

Definition empty_state : state :=
  {| wld := {| heap := ∅; remote := 0 |}; calls := [] |}.

(** A handle whose fetches come back with [None]. *)
Definition silent_api : Voat :=
  {| fetch_comments := fun _ _ w => (Ok VNone, w);
     get_subverse_posts := fun _ w => (Ok VNone, w);
     get_comment := fun _ w => (Ok VNone, w) |}.

(** A stand-in for [datetime.strptime]: accepts the shape
    [dddd-dd-ddTdd:dd:dd]. *)
Fixpoint matches_shape (shape s : string) : bool :=
  match shape, s with
  | EmptyString, EmptyString => true
  | String p shape', String c s' =>
      (if Ascii.eqb p "d"%char then is_digit_char c else Ascii.eqb p c)
      && matches_shape shape' s'
  | _, _ => false
  end.

Definition strptime_iso (s : string) : bool := matches_shape "dddd-dd-ddTdd:dd:dd" s.

Definition comment_json (id : Z) (parent : value) : gmap string value :=
  list_to_map
    [ ("date", VStr "2015-06-01T12:00:00.5");
      ("id", VInt id);
      ("content", VStr "hello");
      ("upVotes", VInt 5);
      ("downVotes", VInt 2);
      ("subverse", VStr "news");
      ("userName", VStr "bob");
      ("parentID", parent);
      ("submissionID", VInt 7) ].

(** The comments of submission 7: comment 10 at top level, 11 and 13
    below 10, 12 below 11. *)
Definition thread : list (gmap string value) :=
  [ comment_json 10 VNone;
    comment_json 11 (VInt 10);
    comment_json 12 (VInt 11);
    comment_json 13 (VInt 10) ].

Fixpoint build_comments (jsons : list (gmap string value)) (w : world)
  : list value * world :=
  match jsons with
  | [] => ([], w)
  | j :: rest =>
      match Comment_from_dict j VVoat {| wld := w; calls := [] |} with
      | (Ok c, s) => let '(cs, w') := build_comments rest (wld s) in (c :: cs, w')
      | (Raise _, s) => build_comments rest (wld s)
      end
  end.

(** A handle that serves [thread] for every submission, and fails to find
    any single comment or subverse. *)
Definition thread_api : Voat :=
  {| fetch_comments := fun _ _ w =>
       let '(cs, w1) := build_comments thread w in
       let '(l, w2) := alloc (OList cs) w1 in
       (Ok (VList l), w2);
     get_subverse_posts := fun _ w => (Raise (ApiError 404), w);
     get_comment := fun _ w => (Raise (ApiError 404), w) |}.

(** Submission 7 of [news], attached to the handle, at address 1. *)
Definition post_state : state :=
  snd (Submission_from_dict strptime_iso
         (list_to_map [("id", VInt 7); ("subverse", VStr "news");
                       ("upVotes", VInt 5); ("downVotes", VInt 2)])
         VVoat empty_state).

(** Comment 10 of submission 7, attached to the handle, at address 1. *)
Definition top_comment_state : state :=
  snd (Comment_from_dict (comment_json 10 VNone) VVoat empty_state).

(** Comment 11, a reply to comment 10, attached to the handle, at address 1. *)
Definition reply_state : state :=
  snd (Comment_from_dict (comment_json 11 (VInt 10)) VVoat empty_state).

(** Comment 11 again, without a handle. *)
Definition detached_state : state :=
  snd (Comment_from_dict (comment_json 11 (VInt 10)) VNone empty_state).

(** [isinstance(v, list)] *)
Definition is_list (v : value) : bool :=
  match v with VList _ => true | _ => false end.

(** The comments among [comments] that name [cid] as their parent, in the
    order of [comments]; a value without a [parent_id] counts as having
    [None] for it. *)
Definition replies_to (cid : value) (comments : list value) (w : world) : list value :=
  List.filter (fun i => same_id (attr_or i "parent_id" VNone w) cid) comments.

(** The date of the payload passes [Submission.from_dict]: it is missing
    or falsy, or it is a string whose part before the first dot
    [strptime] accepts. *)
Definition date_accepted (strptime : string -> bool) (json_data : gmap string value)
    (w : world) : Prop :=
  truthy w (dict_get json_data "date" VNone) = false \/
  exists d, json_data !! "date" = Some (VStr d) /\ strptime (split_head d) = true.

(** The instance dictionary [Submission.from_dict] leaves behind. *)
Definition Submission_bag (json_data : gmap string value) (voat_instance : value)
    (w : world) : gmap string value :=
  list_to_map
    [ ("title", dict_get json_data "title" (VStr ""));
      ("content", dict_get json_data "content" (VStr ""));
      ("_comments", VNone);
      ("author", dict_get json_data "userName" (VStr ""));
      ("post_id", dict_get json_data "id" (VInt (-1)));
      ("subverse", dict_get json_data "subverse" (VStr ""));
      ("karma", dict_get json_data "upVotes" (VInt (-1)));
      ("views", dict_get json_data "views" (VInt (-1)));
      ("date", if truthy w (dict_get json_data "date" VNone)
               then dict_get json_data "date" VNone else VNone);
      ("voat", voat_instance);
      ("is_url", VBool (truthy w (dict_get json_data "url" VNone))) ].

(** The instance dictionary [Subverse.from_dict] leaves behind. *)
Definition Subverse_bag (json_data : gmap string value) (voat_instance : value)
  : gmap string value :=
  list_to_map
    [ ("title", dict_get json_data "title" (VStr ""));
      ("name", dict_get json_data "name" (VStr ""));
      ("nsfw", dict_get json_data "ratedAdult" VNone);
      ("sidebar", dict_get json_data "sidebar" (VStr ""));
      ("date", dict_get json_data "creationDate" VNone);
      ("voat", voat_instance);
      ("subscribers", dict_get json_data "subscriberCount" (VInt (-1)));
      ("description", dict_get json_data "description" (VStr "")) ].

(** The fields [Comment.from_dict] reads, in the order it reads them. *)
Definition Comment_keys : list string :=
  [ "date"; "id"; "content"; "upVotes"; "downVotes"; "subverse"; "userName";
    "parentID"; "submissionID" ].

(** The instance dictionary [Comment.from_dict] leaves behind. *)
Definition Comment_bag (json_data : gmap string value) (voat_instance karma : value)
  : gmap string value :=
  list_to_map
    [ ("voat", voat_instance);
      ("comment_id", dict_get json_data "id" VNone);
      ("date", dict_get json_data "date" VNone);
      ("content", dict_get json_data "content" VNone);
      ("karma", karma);
      ("subverse", dict_get json_data "subverse" VNone);
      ("author", dict_get json_data "userName" VNone);
      ("parent_id", dict_get json_data "parentID" VNone);
      ("submission_id", dict_get json_data "submissionID" VNone) ].

(** An attribute that is the payload's field, or the default when the
    payload has no such field. *)
Definition field_or_default (json_data a : gmap string value)
    (attr key : string) (d : value) : Prop :=
  a !! attr = Some (default d (json_data !! key)).

(** The karma of the entity built from [json_data] is the net score
    [up - down]. *)
Definition karma_is_net (from_dict : gmap string value -> value -> M value)
    (json_data : gmap string value) (voat_instance : value) (s : state)
    (up down : Z) : Prop :=
  exists c l s1,
    from_dict json_data voat_instance s = (Ok (VObj c l), s1) /\
    attrs_of l (wld s1) !! "karma" = Some (VInt (up - down)).

(** A payload with five upvotes and two downvotes. *)
Definition votes_json : gmap string value :=
  list_to_map [("upVotes", VInt 5); ("downVotes", VInt 2)].

(** ** More of AuthToken: the token setter, [headers], [get_auth] *)

(** The setter of the [token] property. *)
Definition AuthToken_set_token (self : AuthToken) (val : value) : AuthToken :=
  {| username := username self;
     expiry_date := expiry_date self;
     gotten_at := gotten_at self;
     token_type := token_type self;
     _token := val |}.

Definition is_lower_char (c : ascii) : bool :=
  (97 <=? nat_of_ascii c)%nat && (nat_of_ascii c <=? 122)%nat.

Definition is_upper_char (c : ascii) : bool :=
  (65 <=? nat_of_ascii c)%nat && (nat_of_ascii c <=? 90)%nat.

Definition upper_char (c : ascii) : ascii :=
  if is_lower_char c then ascii_of_nat (nat_of_ascii c - 32) else c.

Definition lower_char (c : ascii) : ascii :=
  if is_upper_char c then ascii_of_nat (nat_of_ascii c + 32) else c.

(** [s.lower()], on text of ASCII characters: a character above 127 is
    left as it is. *)
Fixpoint lower (s : string) : string :=
  match s with
  | EmptyString => EmptyString
  | String c s' => String (lower_char c) (lower s')
  end.

(** [s.capitalize()], on text of ASCII characters: the first character in
    upper case, the rest in lower case. A character above 127 is left as it
    is, which is not what the interpreter does with every letter; what is
    proved below of the capitalised text is proved of ASCII text. *)
Definition capitalize (s : string) : string :=
  match s with
  | EmptyString => EmptyString
  | String c s' => String (upper_char c) (lower s')
  end.

(** A decoded HTTP response, as [get_auth] looks at it: [req.ok],
    [req.status_code], and what [req.json()] gives: an error when the body
    is not JSON, a dictionary, or some other JSON value. *)
Inductive json_body :=
| BodyInvalid
| BodyObject (fields : gmap string value)
| BodyOther.

Record response := mkResponse {
  ok : bool;
  status_code : Z;
  body : json_body
}.

(** [req_json[k]] *)
Definition body_index (b : gmap string value) (k : string) : result value :=
  match b !! k with
  | Some v => Ok v
  | None => Raise (KeyError k)
  end.

Section Auth.

(** [format(v, "")], the text that a replacement field of [str.format]
    inserts for [v]; a builtin of Python. *)
Variable py_format : value -> string.

(** [py_voat.helpers.handle_code], which is not part of [classes.py]:
    it raises for the status codes it knows and returns for the others. *)
Variable handle_code : Z -> result unit.

(** The interpreter's limit on conversions of strings to [int]. *)
Variable max_str_digits : option nat.

(** The [headers] property; [w] is the heap in which a [token_type] that
    is an object is looked at, [now] the reading of [time.time()]. *)
Definition AuthToken_headers (w : world) (self : AuthToken) (now : spec_float)
  : result (gmap string value) :=
  match token_type self with
  | VStr ty =>
      match AuthToken_token self now with
      | Ok tok =>
          Ok {[ "Authorization" := VStr (capitalize ty ++ " " ++ py_format tok) ]}
      | Raise e => Raise e
      end
  | VObj _ l =>
      match attrs_of l w !! "capitalize" with
      | Some _ => Raise TypeError
      | None => Raise (AttributeError "capitalize")
      end
  | _ => Raise (AttributeError "capitalize")
  end.

(** [AuthToken.get_auth], from the response of the POST request on; [None]
    is the [None] that falls out of the [else] branch. *)
Definition AuthToken_get_auth (req : response) (now : spec_float)
  : result (option AuthToken) :=
  if ok req then
    match body req with
    | BodyInvalid => Raise ValueError
    | BodyOther => Raise TypeError
    | BodyObject req_json =>
        match body_index req_json "userName" with
        | Raise e => Raise e
        | Ok user =>
        match body_index req_json "access_token" with
        | Raise e => Raise e
        | Ok tok =>
        match body_index req_json "token_type" with
        | Raise e => Raise e
        | Ok ty =>
        match body_index req_json "expires_in" with
        | Raise e => Raise e
        | Ok expiry =>
        match AuthToken_init max_str_digits user tok ty expiry now with
        | Ok t => Ok (Some t)
        | Raise e => Raise e
        end end end end end
    end
  else
    match handle_code (status_code req) with
    | Ok _ => Ok None
    | Raise e => Raise e
    end.

End Auth.

(** ** Assignment to a relation *)

(** [self.comments = val] on a [Submission]. *)
Definition Submission_set_comments (self : loc) (val : value) : M unit :=
  setattr Submission self "comments" val.

(** [self.posts = val] on a [Subverse]. *)
Definition Subverse_set_posts (self : loc) (val : value) : M unit :=
  setattr Subverse self "posts" val.

(** ** Vocabulary of the further properties *)

(** The token is expired at [now]. *)
Definition expired (tok : AuthToken) (now : spec_float) : Prop :=
  AuthToken_token tok now = Raise VoatExpiredToken.

(** The first key of [keys] that [json_data] lacks. *)
Definition first_missing (json_data : gmap string value) (keys : list string)
  : option string :=
  List.find (fun k => match json_data !! k with None => true | Some _ => false end) keys.

(** The instance-dictionary keys that the keyword arguments are stored
    under. *)
Definition slots_of (c : cls) (kwargs : list (string * value)) : list (option string) :=
  List.map (fun kv => attr_slot c (fst kv)) kwargs.

(** All characters are below 128. *)
Fixpoint is_ascii (s : string) : bool :=
  match s with
  | EmptyString => true
  | String c s' => (nat_of_ascii c <? 128)%nat && is_ascii s'
  end.

(** The first keyword that [setattr] refuses. *)
Definition first_refused (c : cls) (kwargs : list (string * value)) : option string :=
  fst <$> List.find (fun kv => match attr_slot c (fst kv) with
                               | None => true
                               | Some _ => false
                               end) kwargs.

(** The error of [setattr] on a name it refuses. *)
Definition setattr_error (k : string) : exn :=
  if String.eqb k "__class__" || String.eqb k "__dict__" then TypeError
  else AttributeError k.

(** [s1] differs from [s] at most in the object at [l]. *)
Definition same_except (l : loc) (s s1 : state) : Prop :=
  (forall l', l' <> l -> heap (wld s1) !! l' = heap (wld s) !! l') /\
  remote (wld s1) = remote (wld s) /\ calls s1 = calls s.

(** Sample text formatting: strings as they are, anything else as a
    question mark. *)
Definition format_str (v : value) : string :=
  match v with VStr s => s | _ => "?" end.

(** A [handle_code] that knows the status 401 only. *)
Definition handle_401 (code : Z) : result unit :=
  if (code =? 401)%Z then Raise (ApiError 401) else Ok tt.

(** The subverse [news], attached to the handle, at address 1. *)
Definition subverse_state : state :=
  snd (Subverse_from_dict (list_to_map [("name", VStr "news")]) VVoat empty_state).

(** A comment of submission 7 built by hand, without a [comment_id],
    attached to the handle, at address 1. *)
Definition anonymous_comment_state : state :=
  snd (construct Comment [("voat", VVoat); ("submission_id", VInt 7)] empty_state).

(** A comment whose [voat] is a string, not a handle. *)
Definition mistyped_comment_state : state :=
  snd (construct Comment [("voat", VStr "voat"); ("parent_id", VInt 10)] empty_state).

(** Between [s] and [s1] nothing has changed but the attribute [cell] of
    the object at [self], and objects that did not exist in [s]. *)
Definition touched_only (self : loc) (cell : string) (s s1 : state) : Prop :=
  (forall l', l' <> self -> heap (wld s) !! l' <> None ->
              heap (wld s1) !! l' = heap (wld s) !! l') /\
  (forall k, k <> cell -> attrs_of self (wld s1) !! k = attrs_of self (wld s) !! k) /\
  remote (wld s1) = remote (wld s) /\
  calls s1 = calls s.

(** The attributes of a [Submission] built by [from_dict]. *)
Definition Submission_attribute_names : gset string :=
  {[ "title"; "content"; "_comments"; "author"; "post_id"; "subverse"; "karma";
     "views"; "date"; "voat"; "is_url" ]}.

(** The attributes of a [Subverse] built by [from_dict]. *)
Definition Subverse_attribute_names : gset string :=
  {[ "title"; "name"; "nsfw"; "sidebar"; "date"; "voat"; "subscribers";
     "description" ]}.

(** The attributes of a [Comment] built by [from_dict]. *)
Definition Comment_attribute_names : gset string :=
  {[ "voat"; "comment_id"; "date"; "content"; "karma"; "subverse"; "author";
     "parent_id"; "submission_id" ]}.

(** A payload whose date is a number. *)
Definition numeric_date_json : gmap string value :=
  list_to_map [("date", VInt 20150601); ("title", VStr "hello")].

(** A payload with a date and a field that no factory reads. *)
Definition dated_json : gmap string value :=
  list_to_map [("date", VStr "2015-06-01T12:00:00.123"); ("colour", VStr "red")].

(** * Properties *)

(** ** Digit strings *)

Lemma int_acc_decimal (s : string) (acc : Z) :
  int_acc acc s = (acc * 10 ^ Z.of_nat (String.length s) + decimal_value s)%Z.
Proof.
  revert acc. induction s as [|c s IH]; intros acc; simpl.
  - lia.
  - rewrite IH. rewrite Nat2Z.inj_succ, Z.pow_succ_r by lia. lia.
Qed.

Lemma int_acc_0 (s : string) : int_acc 0 s = decimal_value s.
Proof. rewrite int_acc_decimal. lia. Qed.

Lemma py_int_ok limit s n : py_int limit s = Ok n ->
  s <> "" /\ all_digits s = true /\ within_limit limit s /\ n = decimal_value s.
Proof.
  unfold py_int, within_limit. destruct s as [|c s]; [discriminate|].
  destruct (all_digits (String c s)); [|discriminate]. simpl negb. cbv iota.
  destruct limit as [m|].
  - destruct (Nat.ltb_spec m (String.length (String c s))); [discriminate|].
    intros [= <-]. repeat split; [discriminate|lia|by rewrite <- int_acc_0].
  - intros [= <-]. repeat split; [discriminate|by rewrite <- int_acc_0].
Qed.

Lemma py_int_decimal limit s :
  s <> "" -> all_digits s = true -> within_limit limit s ->
  py_int limit s = Ok (decimal_value s).
Proof.
  unfold py_int, within_limit. intros Hs Hd Hl.
  destruct s as [|c s]; [congruence|]. rewrite Hd. simpl negb. cbv iota.
  destruct limit as [m|].
  - destruct (Nat.ltb_spec m (String.length (String c s))); [lia|].
    by rewrite int_acc_0.
  - by rewrite int_acc_0.
Qed.

Lemma py_int_not_decimal limit s : all_digits s = false -> py_int limit s = Raise ValueError.
Proof. unfold py_int. destruct s; [done|]. by intros ->. Qed.

Lemma py_int_too_long n s :
  (n < String.length s)%nat -> py_int (Some n) s = Raise ValueError.
Proof.
  unfold py_int. intros Hl. destruct s as [|c s]; [done|].
  destruct (all_digits (String c s)); [|done]. simpl negb. cbv iota.
  by destruct (Nat.ltb_spec n (String.length (String c s))); [|lia].
Qed.

Lemma py_int_raises limit s e : py_int limit s = Raise e -> e = ValueError.
Proof.
  unfold py_int. destruct s; [by intros [= <-]|].
  destruct (negb _); [by intros [= <-]|].
  destruct limit as [m|]; [|done].
  by destruct (_ <? _)%nat; [intros [= <-]|].
Qed.

Lemma all_digits_all_isdigit s : all_digits s = true -> all_isdigit s = true.
Proof.
  induction s as [|c s IH]; [done|]. simpl.
  intros [Hc Hs]%andb_true_iff. rewrite Hc, IH by done. done.
Qed.

Lemma all_digits_isdigit s : s <> "" -> all_digits s = true -> isdigit s = true.
Proof.
  intros Hs Hd. destruct s; [done|]. unfold isdigit. by apply all_digits_all_isdigit.
Qed.

(** ** AuthToken *)

Lemma AuthToken_init_cases limit u t ty e now :
  AuthToken_init limit u t ty e now =
  match e with
  | VStr s =>
      if isdigit s then
        match py_int limit s with
        | Ok n => Ok (mkAuthToken u (VInt n) now ty t)
        | Raise err => Raise err
        end
      else Raise VoatBadExpiry
  | VInt _ | VBool _ => Ok (mkAuthToken u e now ty t)
  | _ => Raise VoatBadExpiry
  end.
Proof.
  unfold AuthToken_init. destruct e as [|b|n|s|l|c l|]; try reflexivity.
  destruct (isdigit s); [|reflexivity]. by destruct (py_int limit s).
Qed.

Lemma AuthToken_init_fields limit u t ty e now tok :
  AuthToken_init limit u t ty e now = Ok tok ->
  username tok = u /\ gotten_at tok = now /\ token_type tok = ty /\ _token tok = t /\
  exists secs, as_int (expiry_date tok) = Some secs.
Proof.
  rewrite AuthToken_init_cases. destruct e as [|b|n|s|l|c l|]; try discriminate.
  - intros [= <-]. simpl. eauto 10.
  - intros [= <-]. simpl. eauto 10.
  - destruct (isdigit s); [|discriminate].
    destruct (py_int limit s); [|discriminate]. intros [= <-]. simpl. eauto 10.
Qed.

(** What the constructor does with each kind of expiry: an integer is
    stored as it is; a string of decimal digits within the conversion
    limit is stored as the number it denotes; any other string that
    [isdigit] accepts raises the [ValueError] of [int]; everything else
    raises [VoatBadExpiry]. *)
Lemma AuthToken_init_expiry limit u t ty e now :
  (AuthToken_init limit u t ty e now = Raise VoatBadExpiry <->
   ~ (is_integer e \/ passes_isdigit e)) /\
  (is_integer e -> AuthToken_init limit u t ty e now = Ok (mkAuthToken u e now ty t)) /\
  (forall s, e = VStr s -> s <> "" -> all_digits s = true -> within_limit limit s ->
     AuthToken_init limit u t ty e now =
     Ok (mkAuthToken u (VInt (decimal_value s)) now ty t)) /\
  (forall s, e = VStr s -> isdigit s = true ->
     all_digits s = false \/ ~ within_limit limit s ->
     AuthToken_init limit u t ty e now = Raise ValueError).
Proof.
  rewrite AuthToken_init_cases. unfold is_integer, passes_isdigit.
  split; [|split; [|split]].
  - destruct e as [|b|n|s|l|c l|]; simpl;
      try (split; [discriminate | intros H; exfalso; apply H; left; reflexivity]);
      try (split; [intros _ [H|(s & H & _)]; discriminate | reflexivity]).
    destruct (isdigit s) eqn:Hd.
    + split; [|intros H; exfalso; apply H; right; eauto].
      destruct (py_int limit s) eqn:Hp; [discriminate|].
      apply py_int_raises in Hp as ->. discriminate.
    + split; [|reflexivity]. intros _ [H|(s' & H & Hd')]; [discriminate|].
      injection H as ->. congruence.
  - destruct e; simpl; intros H; try discriminate; reflexivity.
  - intros s -> Hs Hd Hl. rewrite (all_digits_isdigit s Hs Hd).
    by rewrite (py_int_decimal limit s Hs Hd Hl).
  - intros s -> Hd [Hn|Hn]; rewrite Hd.
    + by rewrite (py_int_not_decimal limit s Hn).
    + destruct limit as [m|]; simpl in Hn; [|by destruct Hn].
      rewrite py_int_too_long; [done|lia].
Qed.

Lemma AuthToken_token_cases (tok : AuthToken) (n : Z) (d now : spec_float) :
  as_int (expiry_date tok) = Some n -> float_of_int n = Some d ->
  AuthToken_token tok now =
  if float_le (float_add (gotten_at tok) d) now
  then Raise VoatExpiredToken else Ok (_token tok).
Proof. unfold AuthToken_token. by intros -> ->. Qed.

Lemma AuthToken_token_overflow (tok : AuthToken) (n : Z) (now : spec_float) :
  as_int (expiry_date tok) = Some n -> float_of_int n = None ->
  AuthToken_token tok now = Raise OverflowError.
Proof. unfold AuthToken_token. by intros -> ->. Qed.

(** ** Floats *)

Ltac split_compare :=
  repeat match goal with
         | H : context [Z.compare ?x ?y] |- _ => destruct (Z.compare_spec x y)
         | |- context [Z.compare ?x ?y] => destruct (Z.compare_spec x y)
         | H : context [Pos.compare_cont Eq ?x ?y] |- _ =>
             change (Pos.compare_cont Eq x y) with (Pos.compare x y) in *;
             destruct (Pos.compare_spec x y)
         | |- context [Pos.compare_cont Eq ?x ?y] =>
             change (Pos.compare_cont Eq x y) with (Pos.compare x y) in *;
             destruct (Pos.compare_spec x y)
         end.

Lemma float_le_trans (a b c : spec_float) :
  float_le a b = true -> float_le b c = true -> float_le a c = true.
Proof.
  unfold float_le, SFleb, SFcompare.
  destruct a as [sa|sa| |sa ma ea], b as [sb|sb| |sb mb eb], c as [sc|sc| |sc mc ec];
    try discriminate; try reflexivity;
    try (destruct sa); try (destruct sb); try (destruct sc);
    try discriminate; try reflexivity;
    intros H1 H2; split_compare; simpl in *; try discriminate; try reflexivity; try lia.
Qed.

(** Adding the float zero leaves a comparison as it is. *)
Lemma float_le_add_zero (a b : spec_float) :
  float_le (float_add a (S754_zero false)) b = float_le a b.
Proof.
  unfold float_le, float_add. destruct a as [sa|sa| |sa ma ea]; try reflexivity.
  by destruct sa.
Qed.

Lemma float_of_int_0 : float_of_int 0 = Some (S754_zero false).
Proof. reflexivity. Qed.

(** ** The monad *)

Lemma bind_ok_inv {A B} (m : M A) (f : A -> M B) s b s2 :
  bind m f s = (Ok b, s2) ->
  exists a s1, m s = (Ok a, s1) /\ f a s1 = (Ok b, s2).
Proof.
  unfold bind. destruct (m s) as [[a|e] s1]; intros H.
  - eauto.
  - discriminate.
Qed.

Lemma bind_assoc {A B C} (m : M A) (f : A -> M B) (g : B -> M C) s :
  bind (bind m f) g s = bind m (fun x => bind (f x) g) s.
Proof. unfold bind. destruct (m s) as [[a|e] s1]; reflexivity. Qed.

Lemma bind_ret {A B} (a : A) (f : A -> M B) s : bind (ret a) f s = f a s.
Proof. reflexivity. Qed.

Lemma bind_gets {A B} (f : world -> A) (k : A -> M B) s :
  bind (gets f) k s = k (f (wld s)) s.
Proof. reflexivity. Qed.

Lemma bind_getattr {B} self k d (f : value -> M B) s :
  bind (getattr self k d) f s = f (default d (attrs_of self (wld s) !! k)) s.
Proof. reflexivity. Qed.

Lemma getfield_ok self k s v :
  attrs_of self (wld s) !! k = Some v -> getfield self k s = (Ok v, s).
Proof. unfold getfield, bind, gets. intros ->. reflexivity. Qed.

Lemma getfield_inv self k s v s1 :
  getfield self k s = (Ok v, s1) ->
  s1 = s /\ attrs_of self (wld s) !! k = Some v.
Proof.
  unfold getfield, bind, gets, ret, raise.
  destruct (attrs_of self (wld s) !! k); intros H; inversion H; auto.
Qed.

Lemma bind_getfield {B} self k v (f : value -> M B) s :
  attrs_of self (wld s) !! k = Some v -> bind (getfield self k) f s = f v s.
Proof. intros H. unfold bind. by rewrite (getfield_ok _ _ _ _ H). Qed.

Lemma bind_invoke {B} c op (f : value -> M B) s :
  bind (invoke Handle c op) f s =
  match op (wld s) with
  | (Ok v, w) => f v {| wld := w; calls := calls s ++ [c] |}
  | (Raise e, w) => (Raise e, {| wld := w; calls := calls s ++ [c] |})
  end.
Proof. unfold bind, invoke. destruct (op (wld s)) as [[v|e] w]; reflexivity. Qed.

Lemma bind_try_raise {A B} (m h : M A) (k : A -> M B) s e s' :
  m s = (Raise e, s') -> bind (try_except m h) k s = bind h k s'.
Proof. intros H. unfold bind, try_except. rewrite H. reflexivity. Qed.

Lemma bind_dict_index {B} json k x (f : value -> M B) s :
  json !! k = Some x -> bind (dict_index json k) f s = f x s.
Proof. intros H. unfold bind, dict_index. by rewrite H. Qed.

Lemma dict_index_inv json k x s s1 :
  dict_index json k s = (Ok x, s1) -> json !! k = Some x /\ s1 = s.
Proof.
  unfold dict_index. destruct (json !! k); intros H; inversion H; auto.
Qed.

(** ** The heap *)

Lemma next_loc_fresh (w : world) : heap w !! next_loc w = None.
Proof. apply not_elem_of_dom. unfold next_loc. apply is_fresh. Qed.

Lemma allocated_not_none l w : allocated l w = true -> heap w !! l <> None.
Proof. unfold allocated. destruct (heap w !! l); [discriminate 2|discriminate 1]. Qed.

Lemma attrs_of_store_eq l k v w :
  attrs_of l (store_attr l k v w) = <[k := v]> (attrs_of l w).
Proof. unfold attrs_of at 1, store_attr. simpl. by rewrite lookup_insert_eq. Qed.

Lemma heap_store_ne l l' k v w :
  l <> l' -> heap (store_attr l k v w) !! l' = heap w !! l'.
Proof. intros Hne. unfold store_attr. simpl. by rewrite lookup_insert_ne. Qed.

Lemma store_attr_set l k v h r a :
  store_attr l k v {| heap := <[l := OInst a]> h; remote := r |} =
  {| heap := <[l := OInst (<[k := v]> a)]> h; remote := r |}.
Proof.
  unfold store_attr, attrs_of. simpl.
  by rewrite lookup_insert_eq, insert_insert_eq.
Qed.

Lemma attrs_of_with_object l a s : attrs_of l (wld (with_object l (OInst a) s)) = a.
Proof. unfold attrs_of, with_object. simpl. by rewrite lookup_insert_eq. Qed.

Lemma heap_with_object_ne l l' o s :
  l <> l' -> heap (wld (with_object l o s)) !! l' = heap (wld s) !! l'.
Proof. intros Hne. unfold with_object. simpl. by rewrite lookup_insert_ne. Qed.

Lemma heap_with_object_eq l o s : heap (wld (with_object l o s)) !! l = Some o.
Proof. unfold with_object. simpl. by rewrite lookup_insert_eq. Qed.

(** ** Construction *)

Lemma setattr_slot c l k v s k' :
  attr_slot c k = Some k' -> setattr c l k v s = store l k' v s.
Proof.
  unfold attr_slot, reserved_name, setattr.
  destruct (String.eqb k "self"), (String.eqb k "__class__"),
    (String.eqb k "__dict__"), (String.eqb k "__weakref__");
    simpl; try discriminate.
  destruct c.
  - intros [= <-]. by destruct (String.eqb k "comments").
  - intros [= <-]. by destruct (String.eqb k "posts").
  - destruct (String.eqb k "parent" || String.eqb k "children"); [discriminate|].
    by intros [= <-].
Qed.

Lemma attr_slot_not_self c k k' : attr_slot c k = Some k' -> String.eqb k "self" = false.
Proof.
  unfold attr_slot, reserved_name. by destruct (String.eqb k "self").
Qed.

Lemma init_bag_no_self c kwargs : forall a a',
  init_bag c kwargs a = Some a' -> has_self kwargs = false.
Proof.
  induction kwargs as [|[k v] rest IH]; intros a a' Hb; simpl in *; [done|].
  destruct (attr_slot c k) as [k'|] eqn:Hk; [|discriminate].
  rewrite (attr_slot_not_self _ _ _ Hk). simpl. eauto.
Qed.

Lemma VoatObject_init_set c l kwargs : forall h r cs a a',
  init_bag c kwargs a = Some a' ->
  VoatObject_init c l kwargs
    {| wld := {| heap := <[l := OInst a]> h; remote := r |}; calls := cs |} =
  (Ok tt, {| wld := {| heap := <[l := OInst a']> h; remote := r |}; calls := cs |}).
Proof.
  induction kwargs as [|[k v] rest IH]; intros h r cs a a' Hb; simpl in *.
  - by injection Hb as <-.
  - destruct (attr_slot c k) as [k'|] eqn:Hk; [|discriminate].
    unfold bind. rewrite (setattr_slot _ _ _ _ _ _ Hk).
    unfold store, modify. simpl. rewrite store_attr_set. by apply IH.
Qed.

Lemma construct_ok c kwargs s a' :
  init_bag c kwargs ∅ = Some a' ->
  construct c kwargs s =
  (Ok (VObj c (next_loc (wld s))),
   with_object (next_loc (wld s)) (OInst (finish_bag c a')) s).
Proof.
  intros Hb. unfold construct, alloc, with_object. destruct s as [[h r] cs]. simpl.
  rewrite (init_bag_no_self _ _ _ _ Hb).
  unfold bind at 1. rewrite (VoatObject_init_set _ _ _ _ _ _ _ _ Hb).
  destruct c; unfold bind, store, modify, ret; simpl; try reflexivity.
  by rewrite store_attr_set.
Qed.

(** ** Memo cells *)

Lemma unresolved_cases cell self s :
  unresolved cell self s \/
  exists v, attrs_of self (wld s) !! cell = Some v /\ v <> VNone.
Proof.
  unfold unresolved. destruct (attrs_of self (wld s) !! cell) as [v|] eqn:E.
  - destruct (decide (v = VNone)) as [->|Hv]; [by left|right; eauto].
  - by left.
Qed.

Lemma lazy_cell_hit cell resolve self s v :
  attrs_of self (wld s) !! cell = Some v -> v <> VNone ->
  lazy_cell cell resolve self s = (Ok v, s).
Proof.
  intros Hc Hv. unfold lazy_cell, bind, getattr, gets. rewrite Hc. simpl.
  destruct v; try congruence; simpl; unfold getfield, bind, gets; rewrite Hc; reflexivity.
Qed.

Lemma lazy_cell_post cell resolve self s v s1 :
  lazy_cell cell resolve self s = (Ok v, s1) ->
  attrs_of self (wld s1) !! cell = Some v.
Proof.
  unfold lazy_cell. intros H.
  apply bind_ok_inv in H as (c & s' & _ & H).
  apply bind_ok_inv in H as (u & s'' & _ & H).
  apply getfield_inv in H as [-> H]. exact H.
Qed.

Lemma resolve_new_list cell self xs s :
  exists s1,
    (exec (let! r := new_list xs in store self cell r) in getfield self cell) s =
      (Ok (VList (next_loc (wld s))), s1) /\
    calls s1 = calls s /\
    (heap (wld s) !! self <> None ->
     heap (wld s1) !! next_loc (wld s) = Some (OList xs)).
Proof.
  exists {| wld := store_attr self cell (VList (next_loc (wld s)))
                     (snd (alloc (OList xs) (wld s)));
            calls := calls s |}.
  split; [|split].
  - unfold bind, new_list, alloc, store, modify. cbn [fst snd wld calls].
    rewrite getfield_ok with (v := VList (next_loc (wld s))); [reflexivity|].
    cbn [wld]. rewrite attrs_of_store_eq. apply lookup_insert_eq.
  - reflexivity.
  - intros Ha. cbn [wld].
    rewrite heap_store_ne by (intros Heq; apply Ha; rewrite Heq; apply next_loc_fresh).
    unfold alloc. cbn [snd heap]. apply lookup_insert_eq.
Qed.

Lemma resolve_placeholder self s :
  exists s1,
    (exec (let! r := construct Comment [] in store self "_parent" r) in
     getfield self "_parent") s = (Ok (VObj Comment (next_loc (wld s))), s1) /\
    calls s1 = calls s /\
    (heap (wld s) !! self <> None ->
     heap (wld s1) !! next_loc (wld s) = Some (OInst ∅)).
Proof.
  eexists. split; [|split].
  - unfold bind at 1. unfold bind at 1.
    rewrite (construct_ok Comment [] s ∅ eq_refl).
    unfold store, modify. cbn [fst snd].
    rewrite getfield_ok with (v := VObj Comment (next_loc (wld s))); [reflexivity|].
    cbn [wld]. rewrite attrs_of_store_eq. apply lookup_insert_eq.
  - reflexivity.
  - intros Ha. cbn [wld calls].
    rewrite heap_store_ne by (intros Heq; apply Ha; rewrite Heq; apply next_loc_fresh).
    apply heap_with_object_eq.
Qed.

(** ** Equality of ids and the comprehension of [children] *)



(** ** The four relations *)

(** The first step of every property: the look at its cell. *)
Ltac open_cell H := rewrite bind_getattr, H; cbn [is_none].

(** One further [getattr] of the property body. *)
Ltac read_attr := rewrite bind_assoc, bind_getattr; cbn beta.

Section Relations.

Variable api : Voat.

Lemma Submission_comments_no_handle self s :
  unresolved "_comments" self s -> unresolved "voat" self s ->
  exists s1,
    Submission_comments api self s = (Ok (VList (next_loc (wld s))), s1) /\
    calls s1 = calls s /\
    (heap (wld s) !! self <> None ->
     heap (wld s1) !! next_loc (wld s) = Some (OList [])).
Proof.
  intros Hc Hv. unfold Submission_comments.
  open_cell Hc.
  rewrite bind_assoc, bind_getattr, Hv. cbn [negb is_none].
  apply resolve_new_list.
Qed.

Lemma Subverse_posts_no_handle self s :
  unresolved "_posts" self s -> unresolved "voat" self s ->
  exists s1,
    Subverse_posts api self s = (Ok (VList (next_loc (wld s))), s1) /\
    calls s1 = calls s /\
    (heap (wld s) !! self <> None ->
     heap (wld s1) !! next_loc (wld s) = Some (OList [])).
Proof.
  intros Hc Hv. unfold Subverse_posts.
  open_cell Hc.
  rewrite bind_assoc, bind_getattr, Hv. cbn [negb is_none].
  apply resolve_new_list.
Qed.

Lemma Comment_children_no_fetch self s :
  unresolved "_children" self s ->
  unresolved "submission_id" self s \/ unresolved "voat" self s ->
  exists s1,
    Comment_children api self s = (Ok (VList (next_loc (wld s))), s1) /\
    calls s1 = calls s /\
    (heap (wld s) !! self <> None ->
     heap (wld s1) !! next_loc (wld s) = Some (OList [])).
Proof.
  intros Hc Hv. unfold Comment_children.
  open_cell Hc.
  read_attr.
  read_attr.
  destruct Hv as [Hv|Hv]; rewrite Hv; cbn [negb is_none andb];
    rewrite ?andb_false_r; apply resolve_new_list.
Qed.

Lemma Comment_parent_no_fetch self s :
  unresolved "_parent" self s ->
  unresolved "voat" self s \/ unresolved "parent_id" self s ->
  exists s1,
    Comment_parent api self s = (Ok (VObj Comment (next_loc (wld s))), s1) /\
    calls s1 = calls s /\
    (heap (wld s) !! self <> None ->
     heap (wld s1) !! next_loc (wld s) = Some (OInst ∅)).
Proof.
  intros Hc Hv. unfold Comment_parent.
  open_cell Hc.
  read_attr.
  read_attr.
  destruct Hv as [Hv|Hv]; rewrite Hv; cbn [negb is_none andb];
    rewrite ?andb_false_r; apply resolve_placeholder.
Qed.

(** A resolved cell is returned as it is, and nothing else happens. *)
Lemma Submission_comments_hit self s v :
  attrs_of self (wld s) !! "_comments" = Some v -> v <> VNone ->
  Submission_comments api self s = (Ok v, s).
Proof. intros Hc Hv. exact (lazy_cell_hit "_comments" _ self s v Hc Hv). Qed.

Lemma Subverse_posts_hit self s v :
  attrs_of self (wld s) !! "_posts" = Some v -> v <> VNone ->
  Subverse_posts api self s = (Ok v, s).
Proof. intros Hc Hv. exact (lazy_cell_hit "_posts" _ self s v Hc Hv). Qed.

Lemma Comment_parent_hit self s v :
  attrs_of self (wld s) !! "_parent" = Some v -> v <> VNone ->
  Comment_parent api self s = (Ok v, s).
Proof. intros Hc Hv. exact (lazy_cell_hit "_parent" _ self s v Hc Hv). Qed.

Lemma Comment_children_hit self s v :
  attrs_of self (wld s) !! "_children" = Some v -> v <> VNone ->
  Comment_children api self s = (Ok v, s).
Proof. intros Hc Hv. exact (lazy_cell_hit "_children" _ self s v Hc Hv). Qed.

(** After a successful access the cell holds what was returned. *)
Lemma Submission_comments_post self s v s1 :
  Submission_comments api self s = (Ok v, s1) ->
  attrs_of self (wld s1) !! "_comments" = Some v.
Proof. exact (lazy_cell_post "_comments" _ self s v s1). Qed.

Lemma Subverse_posts_post self s v s1 :
  Subverse_posts api self s = (Ok v, s1) ->
  attrs_of self (wld s1) !! "_posts" = Some v.
Proof. exact (lazy_cell_post "_posts" _ self s v s1). Qed.

Lemma Comment_parent_post self s v s1 :
  Comment_parent api self s = (Ok v, s1) ->
  attrs_of self (wld s1) !! "_parent" = Some v.
Proof. exact (lazy_cell_post "_parent" _ self s v s1). Qed.

Lemma Comment_children_post self s v s1 :
  Comment_children api self s = (Ok v, s1) ->
  attrs_of self (wld s1) !! "_children" = Some v.
Proof. exact (lazy_cell_post "_children" _ self s v s1). Qed.

(** A successful [children] access never returns [None]: the cell held
    something else already, or has been filled with a new list. *)
Lemma Comment_children_not_none self s v s1 :
  Comment_children api self s = (Ok v, s1) -> v <> VNone.
Proof.
  intros H. destruct (unresolved_cases "_children" self s) as [Hc|(c & Hc & Hn)].
  - (* the cell is filled by [new_list] in either branch *)
    assert (forall (m : M (list value)) s0 v0 s2,
               (exec (let! kept := m in let! r := new_list kept in
                      store self "_children" r) in getfield self "_children") s0
               = (Ok v0, s2) -> v0 <> VNone) as Hnew.
    { intros m s0 v0 s2 E.
      apply bind_ok_inv in E as (u & sa & E1 & E2).
      apply bind_ok_inv in E1 as (kept & sb & _ & E1).
      unfold bind, new_list, alloc, store, modify in E1. cbn in E1.
      injection E1 as _ <-.
      apply getfield_inv in E2 as [_ E2]. cbn [wld] in E2.
      rewrite attrs_of_store_eq, lookup_insert_eq in E2.
      injection E2 as <-. discriminate. }
    unfold Comment_children in H.
    rewrite bind_getattr, Hc in H. cbn [is_none] in H.
    rewrite bind_assoc, bind_getattr in H. cbn beta in H.
    rewrite bind_assoc, bind_getattr in H. cbn beta in H.
    destruct (negb _ && negb _).
    + rewrite bind_assoc in H. apply bind_ok_inv in H as (f & sa & _ & H).
      rewrite bind_assoc in H. apply bind_ok_inv in H as (sid & sb & _ & H).
      rewrite bind_assoc in H. apply bind_ok_inv in H as (sv & sc & _ & H).
      rewrite bind_assoc in H. apply bind_ok_inv in H as (cm & sd & _ & H).
      rewrite bind_assoc in H. apply bind_ok_inv in H as (items & se & _ & H).
      exact (Hnew _ _ _ _ H).
    + exact (Hnew (ret []) _ _ _ H).
  - rewrite (Comment_children_hit self s c Hc Hn) in H.
    by injection H as <- <-.
Qed.

Lemma Comment_parent_fetch_raises self s pid e w' :
  unresolved "_parent" self s ->
  attrs_of self (wld s) !! "voat" = Some VVoat ->
  attrs_of self (wld s) !! "parent_id" = Some pid -> pid <> VNone ->
  get_comment api pid (wld s) = (Raise e, w') ->
  Comment_parent api self s =
  (exec (let! r := construct Comment [] in store self "_parent" r) in
   getfield self "_parent") {| wld := w'; calls := calls s ++ [CallGetComment pid] |}.
Proof.
  intros Hc Hv Hp Hn Hf. unfold Comment_parent.
  open_cell Hc.
  read_attr.
  read_attr.
  rewrite Hv, Hp. cbn [default from_option id is_none negb andb].
  replace (negb (is_none pid)) with true by (destruct pid; try reflexivity; congruence).
  apply bind_try_raise with (e := e). cbn [get_method].
  rewrite bind_ret, (bind_getfield _ _ _ _ _ Hp), bind_invoke, Hf. reflexivity.
Qed.

(** Reading [parent] never raises. *)
Lemma Comment_parent_never_raises self s :
  exists v s1, Comment_parent api self s = (Ok v, s1).
Proof.
  destruct (unresolved_cases "_parent" self s) as [Hc|(c & Hc & Hn)].
  - unfold Comment_parent.
    open_cell Hc.
    read_attr.
    read_attr.
    destruct (negb _ && negb _).
    + match goal with
      | |- context [try_except ?m ?h] => destruct (m s) as [[u|e] s'] eqn:E
      end.
      * pose proof E as E'.
        apply bind_ok_inv in E' as (f & sa & _ & E').
        apply bind_ok_inv in E' as (p & sb & _ & E').
        apply bind_ok_inv in E' as (r & sc & _ & E').
        unfold store, modify in E'. injection E' as _ <-.
        exists r. eexists. unfold bind at 1, try_except. rewrite E.
        apply getfield_ok. cbn [wld]. rewrite attrs_of_store_eq. apply lookup_insert_eq.
      * rewrite (bind_try_raise _ _ _ _ _ _ E).
        destruct (resolve_placeholder self s') as (s1 & H & _). eauto.
    + destruct (resolve_placeholder self s) as (s1 & H & _). eauto.
  - rewrite (Comment_parent_hit self s c Hc Hn). eauto.
Qed.


End Relations.

(** ** Factories *)

Lemma check_date_str strptime d s :
  strptime (split_head d) = true -> check_date strptime (VStr d) s = (Ok tt, s).
Proof. intros H. unfold check_date. by rewrite H. Qed.

Lemma Submission_from_dict_ok strptime json v s :
  date_accepted strptime json (wld s) ->
  Submission_from_dict strptime json v s =
  (Ok (VObj Submission (next_loc (wld s))),
   with_object (next_loc (wld s)) (OInst (Submission_bag json v (wld s))) s).
Proof.
  intros Hd. unfold Submission_from_dict.
  rewrite bind_gets. cbn beta zeta.
  assert ((if negb (is_none (if truthy (wld s) (dict_get json "date" VNone)
                             then dict_get json "date" VNone else VNone))
           then check_date strptime (if truthy (wld s) (dict_get json "date" VNone)
                                      then dict_get json "date" VNone else VNone)
           else ret tt) s = (Ok tt, s)) as E.
  { destruct Hd as [Hf|(d & Hj & Hs)].
    - rewrite Hf. reflexivity.
    - unfold dict_get. rewrite Hj. cbn [default from_option id].
      destruct (truthy (wld s) (VStr d)); [|reflexivity].
      cbn [negb is_none]. by apply check_date_str. }
  unfold bind at 1. rewrite E. rewrite bind_gets.
  erewrite construct_ok by reflexivity.
  f_equal.
Qed.

Lemma Subverse_from_dict_ok json v s :
  Subverse_from_dict json v s =
  (Ok (VObj Subverse (next_loc (wld s))),
   with_object (next_loc (wld s)) (OInst (Subverse_bag json v)) s).
Proof.
  unfold Subverse_from_dict. cbn zeta.
  erewrite construct_ok by reflexivity. f_equal.
Qed.

Lemma Comment_from_dict_ok json v s up down karma :
  Forall (fun k => is_Some (json !! k)) Comment_keys ->
  json !! "upVotes" = Some up -> json !! "downVotes" = Some down ->
  py_sub up down = Ok karma ->
  Comment_from_dict json v s =
  (Ok (VObj Comment (next_loc (wld s))),
   with_object (next_loc (wld s)) (OInst (Comment_bag json v karma)) s).
Proof.
  intros Hk Hu Hd Hs. unfold Comment_keys in Hk.
  repeat match goal with
         | H : Forall _ (_ :: _) |- _ => apply Forall_cons in H as [[? ?] H]
         end.
  unfold Comment_from_dict.
  repeat (erewrite bind_dict_index by eassumption).
  simplify_eq. unfold bind at 1, lift. rewrite Hs.
  repeat (erewrite bind_dict_index by eassumption).
  erewrite construct_ok by reflexivity.
  unfold Comment_bag, dict_get.
  repeat match goal with H : json !! _ = Some _ |- _ => rewrite H; clear H end.
  f_equal.
Qed.

(** [Comment.from_dict] succeeds only on a payload that has every field. *)
Lemma Comment_from_dict_needs_keys json v s r s1 :
  Comment_from_dict json v s = (Ok r, s1) ->
  Forall (fun k => is_Some (json !! k)) Comment_keys.
Proof.
  unfold Comment_from_dict. intros H.
  apply bind_ok_inv in H as (x1 & t1 & E1 & H). apply dict_index_inv in E1 as [E1 _].
  apply bind_ok_inv in H as (x2 & t2 & E2 & H). apply dict_index_inv in E2 as [E2 _].
  apply bind_ok_inv in H as (x3 & t3 & E3 & H). apply dict_index_inv in E3 as [E3 _].
  apply bind_ok_inv in H as (x4 & t4 & E4 & H). apply dict_index_inv in E4 as [E4 _].
  apply bind_ok_inv in H as (x5 & t5 & E5 & H). apply dict_index_inv in E5 as [E5 _].
  apply bind_ok_inv in H as (x6 & t6 & _ & H).
  apply bind_ok_inv in H as (x7 & t7 & E7 & H). apply dict_index_inv in E7 as [E7 _].
  apply bind_ok_inv in H as (x8 & t8 & E8 & H). apply dict_index_inv in E8 as [E8 _].
  apply bind_ok_inv in H as (x9 & t9 & E9 & H). apply dict_index_inv in E9 as [E9 _].
  apply bind_ok_inv in H as (x10 & t10 & E10 & H). apply dict_index_inv in E10 as [E10 _].
  unfold Comment_keys. repeat constructor; eauto.
Qed.

(** An entity built by a factory without a handle has no handle, and
    nothing in the cells of its relations. *)
Lemma from_dict_without_handle strptime json s :
  (date_accepted strptime json (wld s) ->
   exists l s1,
     Submission_from_dict strptime json VNone s = (Ok (VObj Submission l), s1) /\
     allocated l (wld s1) = true /\
     unresolved "voat" l s1 /\ unresolved "_comments" l s1) /\
  (exists l s1,
     Subverse_from_dict json VNone s = (Ok (VObj Subverse l), s1) /\
     allocated l (wld s1) = true /\
     unresolved "voat" l s1 /\ unresolved "_posts" l s1) /\
  (forall up down karma,
     Forall (fun k => is_Some (json !! k)) Comment_keys ->
     json !! "upVotes" = Some up -> json !! "downVotes" = Some down ->
     py_sub up down = Ok karma ->
     exists l s1,
       Comment_from_dict json VNone s = (Ok (VObj Comment l), s1) /\
       allocated l (wld s1) = true /\
       unresolved "voat" l s1 /\
       unresolved "_parent" l s1 /\ unresolved "_children" l s1).
Proof.
  split; [|split].
  - intros Hd. eexists _, _. split; [by apply Submission_from_dict_ok|].
    unfold allocated, unresolved. rewrite heap_with_object_eq, attrs_of_with_object.
    repeat split.
  - eexists _, _. split; [apply Subverse_from_dict_ok|].
    unfold allocated, unresolved. rewrite heap_with_object_eq, attrs_of_with_object.
    repeat split.
  - intros up down karma Hk Hu Hd Hs. eexists _, _.
    split; [by apply (Comment_from_dict_ok _ _ _ up down karma)|].
    unfold allocated, unresolved. rewrite heap_with_object_eq, attrs_of_with_object.
    repeat split.
Qed.

(** ** AuthToken *)

(** C4. The constructor departs from the claim on the expiry
    [superscript_two]: the string passes [isdigit], though it is neither an
    integer nor a string of decimal digits, and the conversion by [int]
    then fails. [AuthToken.__init__] raises [ValueError], whatever the
    other arguments are: it neither raises [VoatBadExpiry] nor stores an
    integer. *)
Theorem AuthToken_init_superscript_digit (limit : option nat) (u t ty : value)
    (now : spec_float) :
  isdigit superscript_two = true /\
  ~ is_integer (VStr superscript_two) /\
  ~ is_digit_string (VStr superscript_two) /\
  AuthToken_init limit u t ty (VStr superscript_two) now = Raise ValueError.
Proof.
  split; [reflexivity|]. split; [|split].
  - intros H. discriminate H.
  - intros (s & [= <-] & _ & Hd). discriminate Hd.
  - rewrite AuthToken_init_cases. reflexivity.
Qed.

(** C3, as stated, fails: the code compares and adds floats, and the sum
    is rounded. A token acquired at the reading [100.1] with an expiry of
    [3600] seconds and read at the reading [3700.1] is expired, although
    the number [3700.1] stands for is below the exact sum of the number
    [100.1] stands for and [3600]. *)
Lemma AuthToken_token_rounded_sum :
  ~ expires_at_exact_instant
      (mkAuthToken (VStr "bob") (VInt 3600) (tenths 1001) (VStr "bearer") (VStr "abc"))
      (tenths 37001).
Proof.
  intros H.
  destruct (H _ _ 3600%Z eq_refl eq_refl eq_refl) as [[H1 _] _].
  assert (AuthToken_token
            (mkAuthToken (VStr "bob") (VInt 3600) (tenths 1001) (VStr "bearer") (VStr "abc"))
            (tenths 37001) = Raise VoatExpiredToken) as E by (vm_compute; reflexivity).
  apply H1 in E. apply Qle_bool_iff in E. vm_compute in E. discriminate.
Qed.

(** An expiry too large for a float fails the read with [OverflowError],
    at any time. *)
Example AuthToken_token_huge_expiry (now : spec_float) :
  AuthToken_token
    (mkAuthToken (VStr "bob") (VInt (10 ^ 400)) (seconds 100) (VStr "bearer") (VStr "abc"))
    now = Raise OverflowError.
Proof. by apply AuthToken_token_overflow with (n := (10 ^ 400)%Z). Qed.

(** C3, amended. For a token built by [AuthToken.__init__] at the clock
    reading [t0], with an expiry that converts to the float [d], reading
    [token] at the reading [now] raises [VoatExpiredToken] exactly when the
    float sum of [t0] and [d], rounded as floats are, is at most [now]; in
    the other case the read succeeds and yields the token given at
    construction. *)
Theorem AuthToken_token_expiry (limit : option nat) (u t ty e : value)
    (t0 now : spec_float) (tok : AuthToken) :
  AuthToken_init limit u t ty e t0 = Ok tok ->
  exists secs : Z,
    as_int (expiry_date tok) = Some secs /\ gotten_at tok = t0 /\
    forall d, float_of_int secs = Some d ->
      (AuthToken_token tok now = Raise VoatExpiredToken <->
       float_le (float_add t0 d) now = true) /\
      (float_le (float_add t0 d) now = false -> AuthToken_token tok now = Ok t).
Proof.
  intros H. apply AuthToken_init_fields in H as (_ & Hg & _ & Ht & secs & Hs).
  exists secs. split; [exact Hs|]. split; [exact Hg|].
  intros d Hd. rewrite (AuthToken_token_cases tok secs d now Hs Hd), Hg, Ht.
  destruct (float_le (float_add t0 d) now); split; try done.
Qed.

Lemma AuthToken_token_expiry_witness :
  (AuthToken_token
     (mkAuthToken (VStr "bob") (VInt 3600) (tenths 1001) (VStr "bearer") (VStr "abc"))
     (tenths 37001) = Raise VoatExpiredToken <->
   float_le (float_add (tenths 1001) (seconds 3600)) (tenths 37001) = true) /\
  AuthToken_token
    (mkAuthToken (VStr "bob") (VInt 3600) (tenths 1001) (VStr "bearer") (VStr "abc"))
    (seconds 3700) = Ok (VStr "abc").
Proof.
  split.
  - destruct (AuthToken_token_expiry None (VStr "bob") (VStr "abc") (VStr "bearer")
                (VStr "3600") (tenths 1001) (tenths 37001) _ eq_refl)
      as (secs & Hs & _ & H).
    injection Hs as <-. exact (proj1 (H (seconds 3600) eq_refl)).
  - destruct (AuthToken_token_expiry None (VStr "bob") (VStr "abc") (VStr "bearer")
                (VStr "3600") (tenths 1001) (seconds 3700) _ eq_refl)
      as (secs & Hs & _ & H).
    injection Hs as <-. exact (proj2 (H (seconds 3600) eq_refl) eq_refl).
Defined.

(** ** Lazy relations *)

(** C1, as stated, fails: a fetch that returns [None] is stored in the
    cell, where it reads as "nothing yet"; the second access of
    [Submission.comments] through [silent_api] fetches again. *)
Lemma Submission_comments_not_memoised :
  ~ memoised (Submission_comments silent_api) 1%positive post_state.
Proof.
  intros H.
  specialize (H VNone (snd (Submission_comments silent_api 1%positive post_state))).
  assert (Submission_comments silent_api 1%positive post_state =
          (Ok VNone, snd (Submission_comments silent_api 1%positive post_state))) as E
    by (vm_compute; reflexivity).
  apply H in E.
  apply (f_equal (fun r => length (calls (snd r)))) in E.
  vm_compute in E. discriminate.
Qed.

(** C1, amended. When the first access of [Submission.comments],
    [Subverse.posts] or [Comment.parent] returns a result other than
    [None], the second access returns the same result and leaves the state
    unchanged: nothing is fetched again. [Comment.children] never returns
    [None], and is memoised as it stands. *)
Theorem lazy_relations_memoised (api : Voat) (self : loc) (s : state) :
  memoised_unless_none (Submission_comments api) self s /\
  memoised_unless_none (Subverse_posts api) self s /\
  memoised_unless_none (Comment_parent api) self s /\
  memoised (Comment_children api) self s.
Proof.
  repeat split; intros v s1 H.
  - intros Hv. apply Submission_comments_hit; [|done].
    exact (Submission_comments_post api self s v s1 H).
  - intros Hv. apply Subverse_posts_hit; [|done].
    exact (Subverse_posts_post api self s v s1 H).
  - intros Hv. apply Comment_parent_hit; [|done].
    exact (Comment_parent_post api self s v s1 H).
  - apply Comment_children_hit.
    + exact (Comment_children_post api self s v s1 H).
    + exact (Comment_children_not_none api self s v s1 H).
Qed.

Lemma lazy_relations_memoised_witness :
  exists v s1,
    Submission_comments thread_api 1%positive post_state = (Ok v, s1) /\
    v <> VNone /\
    Submission_comments thread_api 1%positive s1 = (Ok v, s1).
Proof.
  exists (VList 6%positive), (snd (Submission_comments thread_api 1%positive post_state)).
  assert (Submission_comments thread_api 1%positive post_state =
          (Ok (VList 6%positive),
           snd (Submission_comments thread_api 1%positive post_state))) as E
    by (vm_compute; reflexivity).
  split; [exact E|]. split; [discriminate|].
  apply (proj1 (lazy_relations_memoised thread_api 1%positive post_state) _ _ E).
  discriminate.
Defined.

(** C5. On an entity without a handle ([voat] missing or [None]), the
    first access of each lazy relation, that is an access while its cell
    holds nothing, fetches nothing and returns an empty default: a new
    empty list for [comments], [posts] and [children], a new [Comment]
    without attributes for [parent]. *)
Theorem lazy_relations_without_handle (api : Voat) (self : loc) (s : state) :
  allocated self (wld s) = true ->
  unresolved "voat" self s ->
  (unresolved "_comments" self s ->
   exists v s1, Submission_comments api self s = (Ok v, s1) /\
                calls s1 = calls s /\ fresh_empty_list s s1 v) /\
  (unresolved "_posts" self s ->
   exists v s1, Subverse_posts api self s = (Ok v, s1) /\
                calls s1 = calls s /\ fresh_empty_list s s1 v) /\
  (unresolved "_parent" self s ->
   exists v s1, Comment_parent api self s = (Ok v, s1) /\
                calls s1 = calls s /\ fresh_placeholder (wld s) s1 v) /\
  (unresolved "_children" self s ->
   exists v s1, Comment_children api self s = (Ok v, s1) /\
                calls s1 = calls s /\ fresh_empty_list s s1 v).
Proof.
  intros Ha Hv. apply allocated_not_none in Ha.
  repeat split; intros Hc.
  - destruct (Submission_comments_no_handle api self s Hc Hv) as (s1 & E & Hk & Hl).
    exists (VList (next_loc (wld s))), s1. repeat split; [done..|].
    exists (next_loc (wld s)). auto using next_loc_fresh.
  - destruct (Subverse_posts_no_handle api self s Hc Hv) as (s1 & E & Hk & Hl).
    exists (VList (next_loc (wld s))), s1. repeat split; [done..|].
    exists (next_loc (wld s)). auto using next_loc_fresh.
  - destruct (Comment_parent_no_fetch api self s Hc (or_introl Hv)) as (s1 & E & Hk & Hl).
    exists (VObj Comment (next_loc (wld s))), s1. repeat split; [done..|].
    exists (next_loc (wld s)). auto using next_loc_fresh.
  - destruct (Comment_children_no_fetch api self s Hc (or_intror Hv)) as (s1 & E & Hk & Hl).
    exists (VList (next_loc (wld s))), s1. repeat split; [done..|].
    exists (next_loc (wld s)). auto using next_loc_fresh.
Qed.

Lemma lazy_relations_without_handle_witness :
  exists v s1, Comment_parent silent_api 1%positive detached_state = (Ok v, s1) /\
               calls s1 = calls detached_state /\
               fresh_placeholder (wld detached_state) s1 v.
Proof.
  refine (proj1 (proj2 (proj2
            (lazy_relations_without_handle silent_api 1%positive detached_state _ _))) _);
    vm_compute; reflexivity.
Defined.

(** C2. On a [Comment] with the handle attached and a [parent_id] other
    than [None], when the access of [parent] reaches [get_comment] (the
    cell holds nothing yet) and [get_comment] raises, whatever the error,
    the access does not raise: it returns a new [Comment] without
    attributes, created after the failed fetch. *)
Theorem Comment_parent_fetch_failure (api : Voat) (self : loc) (s : state)
    (pid : value) (e : exn) (w' : world) :
  unresolved "_parent" self s ->
  attrs_of self (wld s) !! "voat" = Some VVoat ->
  attrs_of self (wld s) !! "parent_id" = Some pid ->
  pid <> VNone ->
  get_comment api pid (wld s) = (Raise e, w') ->
  allocated self w' = true ->
  exists v s1, Comment_parent api self s = (Ok v, s1) /\
               fresh_placeholder w' s1 v /\
               calls s1 = (calls s ++ [CallGetComment pid])%list.
Proof.
  intros Hc Hv Hp Hn Hf Ha. apply allocated_not_none in Ha.
  rewrite (Comment_parent_fetch_raises api self s pid e w' Hc Hv Hp Hn Hf).
  destruct (resolve_placeholder self {| wld := w'; calls := calls s ++ [CallGetComment pid] |})
    as (s1 & E & Hk & Hl).
  exists (VObj Comment (next_loc w')), s1. split; [exact E|]. split; [|exact Hk].
  exists (next_loc w'). auto using next_loc_fresh.
Qed.

Lemma Comment_parent_fetch_failure_witness :
  exists v s1, Comment_parent thread_api 1%positive reply_state = (Ok v, s1) /\
               fresh_placeholder (wld reply_state) s1 v /\
               calls s1 = (calls reply_state ++ [CallGetComment (VInt 10)])%list.
Proof.
  apply (Comment_parent_fetch_failure thread_api 1%positive reply_state (VInt 10)
           (ApiError 404) (wld reply_state));
    try (vm_compute; reflexivity).
  discriminate.
Defined.

(** C10. On a [Comment] whose [parent_id] is missing or [None], reading
    [parent] never fetches and never raises, with or without a handle; on
    the first access (the cell holds nothing yet) it returns a new
    [Comment] without attributes. *)
Theorem Comment_parent_top_level (api : Voat) (self : loc) (s : state) :
  unresolved "parent_id" self s ->
  exists v s1, Comment_parent api self s = (Ok v, s1) /\
               calls s1 = calls s /\
               (unresolved "_parent" self s -> allocated self (wld s) = true ->
                fresh_placeholder (wld s) s1 v).
Proof.
  intros Hp. destruct (unresolved_cases "_parent" self s) as [Hc|(c & Hc & Hn)].
  - destruct (Comment_parent_no_fetch api self s Hc (or_intror Hp)) as (s1 & E & Hk & Hl).
    exists (VObj Comment (next_loc (wld s))), s1. repeat split; [done..|].
    intros _ Ha. apply allocated_not_none in Ha.
    exists (next_loc (wld s)). auto using next_loc_fresh.
  - exists c, s. rewrite (Comment_parent_hit api self s c Hc Hn).
    repeat split. intros Hu. unfold unresolved in Hu. rewrite Hc in Hu. done.
Qed.

Lemma Comment_parent_top_level_witness :
  exists v s1, Comment_parent thread_api 1%positive top_comment_state = (Ok v, s1) /\
               calls s1 = calls top_comment_state /\
               (unresolved "_parent" 1%positive top_comment_state ->
                allocated 1%positive (wld top_comment_state) = true ->
                fresh_placeholder (wld top_comment_state) s1 v).
Proof.
  apply (Comment_parent_top_level thread_api 1%positive top_comment_state).
  vm_compute; reflexivity.
Defined.



Example replies_to_thread :
  let w' := snd (fetch_comments thread_api (VInt 7) (VStr "news") (wld top_comment_state)) in
  replies_to (VInt 10) (items_of 6%positive w') w' =
  [VObj Comment 3%positive; VObj Comment 5%positive].
Proof. vm_compute. reflexivity. Qed.

(** ** Factories *)

(** C6, as stated, fails: [Comment.from_dict] indexes the payload without
    defaults, and raises [KeyError] on the empty payload. *)
Lemma Comment_from_dict_empty_payload :
  ~ exists r s1, Comment_from_dict ∅ VNone empty_state = (Ok r, s1).
Proof. intros (r & s1 & H). vm_compute in H. discriminate. Qed.

Example Comment_from_dict_empty_raises :
  Comment_from_dict ∅ VNone empty_state = (Raise (KeyError "date"), empty_state).
Proof. reflexivity. Qed.

(** C6, amended. [Submission.from_dict] and [Subverse.from_dict] succeed
    when fields are missing from the payload, and give each missing field
    its default ([Submission.from_dict] provided the date of the payload is
    missing, falsy, or a string that [strptime] accepts);
    [Comment.from_dict] has no defaults and raises when one of its nine
    fields is missing. *)
Theorem from_dict_defaults (strptime : string -> bool)
    (json_data : gmap string value) (voat_instance : value) (s : state) :
  (date_accepted strptime json_data (wld s) ->
   exists l s1,
     Submission_from_dict strptime json_data voat_instance s = (Ok (VObj Submission l), s1) /\
     let a := attrs_of l (wld s1) in
     field_or_default json_data a "title" "title" (VStr "") /\
     field_or_default json_data a "content" "content" (VStr "") /\
     field_or_default json_data a "author" "userName" (VStr "") /\
     field_or_default json_data a "post_id" "id" (VInt (-1)) /\
     field_or_default json_data a "subverse" "subverse" (VStr "") /\
     field_or_default json_data a "karma" "upVotes" (VInt (-1)) /\
     field_or_default json_data a "views" "views" (VInt (-1)) /\
     (json_data !! "date" = None -> a !! "date" = Some VNone) /\
     (json_data !! "url" = None -> a !! "is_url" = Some (VBool false)) /\
     a !! "voat" = Some voat_instance) /\
  (exists l s1,
     Subverse_from_dict json_data voat_instance s = (Ok (VObj Subverse l), s1) /\
     let a := attrs_of l (wld s1) in
     field_or_default json_data a "title" "title" (VStr "") /\
     field_or_default json_data a "name" "name" (VStr "") /\
     field_or_default json_data a "nsfw" "ratedAdult" VNone /\
     field_or_default json_data a "sidebar" "sidebar" (VStr "") /\
     field_or_default json_data a "date" "creationDate" VNone /\
     field_or_default json_data a "subscribers" "subscriberCount" (VInt (-1)) /\
     field_or_default json_data a "description" "description" (VStr "") /\
     a !! "voat" = Some voat_instance) /\
  ((exists k, k ∈ Comment_keys /\ json_data !! k = None) ->
   exists e s1, Comment_from_dict json_data voat_instance s = (Raise e, s1)).
Proof.
  split; [|split].
  - intros Hd. eexists _, _. split; [by apply Submission_from_dict_ok|].
    cbn zeta. rewrite attrs_of_with_object. unfold field_or_default.
    repeat split; try reflexivity.
    + intros Hn. unfold Submission_bag, dict_get. rewrite Hn. reflexivity.
    + intros Hn. unfold Submission_bag, dict_get. rewrite Hn. reflexivity.
  - eexists _, _. split; [apply Subverse_from_dict_ok|].
    cbn zeta. rewrite attrs_of_with_object. unfold field_or_default.
    repeat split; reflexivity.
  - intros (k & Hin & Hk).
    destruct (Comment_from_dict json_data voat_instance s) as [[r|e] s1] eqn:E; [|eauto].
    apply Comment_from_dict_needs_keys in E.
    rewrite Forall_forall in E. destruct (E k Hin) as [x Hx]. congruence.
Qed.

Lemma from_dict_defaults_witness :
  exists l s1,
    Submission_from_dict strptime_iso votes_json VVoat empty_state
      = (Ok (VObj Submission l), s1) /\
    let a := attrs_of l (wld s1) in
    field_or_default votes_json a "title" "title" (VStr "") /\
    field_or_default votes_json a "content" "content" (VStr "") /\
    field_or_default votes_json a "author" "userName" (VStr "") /\
    field_or_default votes_json a "post_id" "id" (VInt (-1)) /\
    field_or_default votes_json a "subverse" "subverse" (VStr "") /\
    field_or_default votes_json a "karma" "upVotes" (VInt (-1)) /\
    field_or_default votes_json a "views" "views" (VInt (-1)) /\
    (votes_json !! "date" = None -> a !! "date" = Some VNone) /\
    (votes_json !! "url" = None -> a !! "is_url" = Some (VBool false)) /\
    a !! "voat" = Some VVoat.
Proof.
  apply (proj1 (from_dict_defaults strptime_iso votes_json VVoat empty_state)).
  left. reflexivity.
Defined.

(** C7, as stated, fails for [Submission]: its karma is the upvote count
    of the payload, and the downvotes are not read. *)
Lemma Submission_karma_not_net :
  ~ karma_is_net (Submission_from_dict strptime_iso) votes_json VNone empty_state 5 2.
Proof.
  intros (c & l & s1 & H & Hk). vm_compute in H. injection H as <- <- <-.
  vm_compute in Hk. discriminate.
Qed.

(** C7, amended. On a payload with all the fields of a comment and
    integer [upVotes] and [downVotes], the karma of the [Comment] built by
    [from_dict] is [upVotes - downVotes]; the karma of the [Submission]
    built by [from_dict] is the [upVotes] of the payload. *)
Theorem karma_from_dict (strptime : string -> bool)
    (json_data : gmap string value) (voat_instance : value) (s : state)
    (up down : value) (u d : Z) :
  json_data !! "upVotes" = Some up ->
  json_data !! "downVotes" = Some down ->
  as_int up = Some u -> as_int down = Some d ->
  (Forall (fun k => is_Some (json_data !! k)) Comment_keys ->
   karma_is_net Comment_from_dict json_data voat_instance s u d) /\
  (date_accepted strptime json_data (wld s) ->
   exists l s1,
     Submission_from_dict strptime json_data voat_instance s = (Ok (VObj Submission l), s1) /\
     attrs_of l (wld s1) !! "karma" = Some up).
Proof.
  intros Hu Hd Hiu Hid. split.
  - intros Hk. eexists Comment, _, _. split.
    + apply (Comment_from_dict_ok _ _ _ up down (VInt (u - d))); try done.
      unfold py_sub. by rewrite Hiu, Hid.
    + rewrite attrs_of_with_object. reflexivity.
  - intros Ha. eexists _, _. split; [by apply Submission_from_dict_ok|].
    rewrite attrs_of_with_object. unfold Submission_bag, dict_get. rewrite Hu. reflexivity.
Qed.

Lemma karma_from_dict_witness :
  karma_is_net Comment_from_dict (comment_json 11 (VInt 10)) VVoat empty_state 5 2.
Proof.
  apply (proj1 (karma_from_dict strptime_iso (comment_json 11 (VInt 10)) VVoat empty_state
                  (VInt 5) (VInt 2) 5 2 eq_refl eq_refl eq_refl eq_refl)).
  unfold Comment_keys. repeat constructor; eexists; reflexivity.
Defined.

(** C8. [Submission.from_dict] on the empty payload succeeds; the entity
    has an empty title, content, author and subverse, [-1] for its post
    id, karma and views, [None] for its date, [False] for [is_url], and
    its [comments] are a new empty list, got without a fetch. *)
Theorem Submission_from_dict_empty (strptime : string -> bool) (api : Voat) (s : state) :
  exists l s1,
    Submission_from_dict strptime ∅ VNone s = (Ok (VObj Submission l), s1) /\
    calls s1 = calls s /\
    let a := attrs_of l (wld s1) in
    a !! "title" = Some (VStr "") /\
    a !! "content" = Some (VStr "") /\
    a !! "author" = Some (VStr "") /\
    a !! "post_id" = Some (VInt (-1)) /\
    a !! "subverse" = Some (VStr "") /\
    a !! "karma" = Some (VInt (-1)) /\
    a !! "views" = Some (VInt (-1)) /\
    a !! "date" = Some VNone /\
    a !! "is_url" = Some (VBool false) /\
    exists v s2,
      Submission_comments api l s1 = (Ok v, s2) /\
      fresh_empty_list s1 s2 v /\ calls s2 = calls s.
Proof.
  eexists _, _. split; [apply Submission_from_dict_ok; by left|].
  split; [reflexivity|]. cbn zeta. rewrite attrs_of_with_object.
  repeat split; try reflexivity.
  set (l := next_loc (wld s)).
  set (s1 := with_object l (OInst (Submission_bag ∅ VNone (wld s))) s).
  destruct (Submission_comments_no_handle api l s1) as (s2 & E & Hk & Hl).
  - unfold unresolved, s1. by rewrite attrs_of_with_object.
  - unfold unresolved, s1. by rewrite attrs_of_with_object.
  - exists (VList (next_loc (wld s1))), s2. split; [exact E|]. split; [|exact Hk].
    exists (next_loc (wld s1)). split; [reflexivity|]. split; [apply next_loc_fresh|].
    apply Hl. unfold s1. by rewrite heap_with_object_eq.
Qed.
(** * Further properties *)

(** ** AuthToken *)

Lemma all_digits_bounds (s : string) :
  all_digits s = true ->
  (0 <= decimal_value s < 10 ^ Z.of_nat (String.length s))%Z.
Proof.
  induction s as [|c s IH]; simpl; [lia|].
  intros [Hc Hs]%andb_prop. specialize (IH Hs).
  unfold is_digit_char in Hc. apply andb_prop in Hc as [H1 H2].
  apply Nat.leb_le in H1, H2. unfold digit_of_char.
  rewrite Nat2Z.inj_succ, Z.pow_succ_r by lia. nia.
Qed.

Lemma expired_iff (tok : AuthToken) (n : Z) (d now : spec_float) :
  as_int (expiry_date tok) = Some n -> float_of_int n = Some d ->
  expired tok now <-> float_le (float_add (gotten_at tok) d) now = true.
Proof.
  intros Hn Hd. unfold expired. rewrite (AuthToken_token_cases tok n d now Hn Hd).
  destruct (float_le _ now); split; try done.
Qed.

Lemma expired_inv (tok : AuthToken) (now : spec_float) :
  expired tok now ->
  exists n d, as_int (expiry_date tok) = Some n /\ float_of_int n = Some d.
Proof.
  unfold expired, AuthToken_token.
  destruct (as_int (expiry_date tok)) as [n|]; [|discriminate].
  destruct (float_of_int n) as [d|] eqn:Hd; [|discriminate]. intros _. by exists n, d.
Qed.

(** X1. An expired token stays expired: if reading [token] raises
    [VoatExpiredToken] at some time, it does so at every later time. *)
Theorem AuthToken_expired_forever (tok : AuthToken) (now later : spec_float) :
  expired tok now -> float_le now later = true -> expired tok later.
Proof.
  intros He Hl. destruct (expired_inv tok now He) as (n & d & Hn & Hd).
  rewrite (expired_iff tok n d) in * by done. by apply float_le_trans with now.
Qed.

Lemma AuthToken_expired_forever_witness :
  expired
    (mkAuthToken (VStr "bob") (VInt 3600) (seconds 100) (VStr "bearer") (VStr "abc"))
    (seconds 4000).
Proof.
  apply (AuthToken_expired_forever _ (seconds 3700) (seconds 4000)); reflexivity.
Defined.

(** X2. An expiry given as a string is stored as a number that is never
    negative and has at most as many digits as the string has
    characters. *)
Theorem AuthToken_init_string_expiry (limit : option nat) (u t ty : value) (s : string)
    (now : spec_float) (tok : AuthToken) :
  AuthToken_init limit u t ty (VStr s) now = Ok tok ->
  exists n, expiry_date tok = VInt n /\
            (0 <= n < 10 ^ Z.of_nat (String.length s))%Z.
Proof.
  rewrite AuthToken_init_cases. destruct (isdigit s); [|discriminate].
  destruct (py_int limit s) as [n|] eqn:Hp; [|discriminate].
  intros [= <-]. simpl. exists n. split; [reflexivity|].
  apply py_int_ok in Hp as (_ & Hd & _ & ->). by apply all_digits_bounds.
Qed.

Lemma AuthToken_init_string_expiry_witness :
  exists n, VInt 3600 = VInt n /\ (0 <= n < 10 ^ Z.of_nat (String.length "3600"))%Z.
Proof.
  exact (AuthToken_init_string_expiry None (VStr "bob") (VStr "abc") (VStr "bearer") "3600"
           (seconds 0) _ eq_refl).
Defined.

(** X3. A token built with an expiry of zero is expired from its
    construction on: reading it raises [VoatExpiredToken] at the reading
    of its construction and at every later one. *)
Theorem AuthToken_born_expired (limit : option nat) (u t ty e : value)
    (t0 now : spec_float) (tok : AuthToken) :
  AuthToken_init limit u t ty e t0 = Ok tok ->
  as_int (expiry_date tok) = Some 0%Z ->
  float_le t0 now = true -> expired tok now.
Proof.
  intros Hi Hn Hle. apply AuthToken_init_fields in Hi as (_ & Hg & _).
  apply (expired_iff tok 0 (S754_zero false) now Hn float_of_int_0).
  by rewrite Hg, float_le_add_zero.
Qed.

Lemma AuthToken_born_expired_witness :
  expired (mkAuthToken (VStr "bob") (VInt 0) (seconds 100) (VStr "bearer") (VStr "abc"))
          (seconds 100).
Proof.
  apply (AuthToken_born_expired None (VStr "bob") (VStr "abc") (VStr "bearer") (VStr "0")
           (seconds 100) (seconds 100) _ eq_refl eq_refl).
  reflexivity.
Defined.

(** X4. Assigning to [token] replaces the value that is read and nothing
    else: the new value is what a read returns while the token is valid,
    and the token expires at the same instant as before. *)
Theorem AuthToken_set_token_read (tok : AuthToken) (val : value) (now : spec_float) :
  (expired (AuthToken_set_token tok val) now <-> expired tok now) /\
  (forall old, AuthToken_token tok now = Ok old ->
               AuthToken_token (AuthToken_set_token tok val) now = Ok val).
Proof.
  unfold expired, AuthToken_token, AuthToken_set_token. simpl.
  destruct (as_int (expiry_date tok)) as [n|]; [|split; [done|discriminate]].
  destruct (float_of_int n); [|split; [done|discriminate]].
  destruct (float_le _ now); split; try done; discriminate.
Qed.

Lemma AuthToken_set_token_read_witness :
  AuthToken_token
    (AuthToken_set_token
       (mkAuthToken (VStr "bob") (VInt 3600) (seconds 100) (VStr "bearer") (VStr "abc"))
       (VStr "xyz"))
    (seconds 200) = Ok (VStr "xyz").
Proof.
  exact (proj2 (AuthToken_set_token_read
                  (mkAuthToken (VStr "bob") (VInt 3600) (seconds 100) (VStr "bearer")
                     (VStr "abc"))
                  (VStr "xyz") (seconds 200)) (VStr "abc") eq_refl).
Defined.

Lemma upper_lower_char (c : ascii) : upper_char (lower_char c) = upper_char c.
Proof. destruct c as [[] [] [] [] [] [] [] []]; reflexivity. Qed.

Lemma capitalize_lower (s1 s2 : string) :
  lower s1 = lower s2 -> capitalize s1 = capitalize s2.
Proof.
  destruct s1 as [|c1 r1], s2 as [|c2 r2]; simpl; try done.
  intros [= Hc Hr]. rewrite Hr. f_equal.
  by rewrite <- (upper_lower_char c1), <- (upper_lower_char c2), Hc.
Qed.

(** X5. For a token built with a type [ty] of ASCII characters and a
    string token [tk], [headers] raises [VoatExpiredToken] exactly when the
    token is expired and [OverflowError] when the expiry is too large for a
    float; otherwise it is the dictionary with the one key [Authorization],
    whose value is [ty] capitalised, a space, and [tk]. *)
Theorem AuthToken_headers_value (py_format : value -> string) (w : world)
    (limit : option nat) (u e : value) (tk ty : string) (t0 now : spec_float)
    (tok : AuthToken) :
  (forall s, py_format (VStr s) = s) ->
  is_ascii ty = true ->
  AuthToken_init limit u (VStr tk) (VStr ty) e t0 = Ok tok ->
  exists secs : Z,
    as_int (expiry_date tok) = Some secs /\
    (AuthToken_headers py_format w tok now = Raise VoatExpiredToken <-> expired tok now) /\
    (float_of_int secs = None ->
     AuthToken_headers py_format w tok now = Raise OverflowError) /\
    (float_of_int secs <> None -> ~ expired tok now ->
     AuthToken_headers py_format w tok now =
     Ok {[ "Authorization" := VStr (capitalize ty ++ " " ++ tk) ]}).
Proof.
  intros Hf _ Hi. apply AuthToken_init_fields in Hi as (_ & _ & Hty & Htk & secs & Hs).
  exists secs. split; [exact Hs|].
  unfold expired, AuthToken_headers, AuthToken_token. rewrite Hty, Hs, Htk.
  destruct (float_of_int secs) as [d|].
  - destruct (float_le _ now); rewrite ?Hf; repeat split; try done.
  - repeat split; try done.
Qed.

Lemma AuthToken_headers_value_witness :
  AuthToken_headers format_str empty_state.(wld)
    (mkAuthToken (VStr "bob") (VInt 3600) (seconds 100) (VStr "bearer") (VStr "abc"))
    (seconds 200) =
  Ok {[ "Authorization" := VStr "Bearer abc" ]}.
Proof.
  destruct (AuthToken_headers_value format_str (wld empty_state) None
              (VStr "bob") (VStr "3600") "abc" "bearer" (seconds 100)
              (seconds 200) _ (fun s => eq_refl) eq_refl eq_refl)
    as (secs & Hs & _ & _ & H).
  injection Hs as <-. apply H; discriminate.
Defined.

(** X6. [headers] reads the token type up to letter case: two tokens that
    differ only in the case of the letters of their type have the same
    headers. *)
Theorem AuthToken_headers_case (py_format : value -> string) (w : world)
    (u e t : value) (g now : spec_float) (ty1 ty2 : string) :
  lower ty1 = lower ty2 ->
  AuthToken_headers py_format w (mkAuthToken u e g (VStr ty1) t) now =
  AuthToken_headers py_format w (mkAuthToken u e g (VStr ty2) t) now.
Proof.
  intros Hl. unfold AuthToken_headers, AuthToken_token. simpl.
  by rewrite (capitalize_lower ty1 ty2 Hl).
Qed.

Lemma AuthToken_headers_case_witness :
  AuthToken_headers format_str (wld empty_state)
    (mkAuthToken (VStr "bob") (VInt 3600) (seconds 100) (VStr "bearer") (VStr "abc")) (seconds 200) =
  AuthToken_headers format_str (wld empty_state)
    (mkAuthToken (VStr "bob") (VInt 3600) (seconds 100) (VStr "BEARER") (VStr "abc")) (seconds 200).
Proof.
  exact (AuthToken_headers_case format_str (wld empty_state) (VStr "bob") (VInt 3600)
           (VStr "abc") (seconds 100) (seconds 200) "bearer" "BEARER" eq_refl).
Defined.

(** X7. When the token type is not a string, [headers] fails on
    [capitalize] before the token is read: the error is never
    [VoatExpiredToken], expired or not. *)
Theorem AuthToken_headers_bad_type (py_format : value -> string) (w : world)
    (tok : AuthToken) (now : spec_float) :
  (forall s, token_type tok <> VStr s) ->
  exists e, AuthToken_headers py_format w tok now = Raise e /\ e <> VoatExpiredToken.
Proof.
  intros Hs. unfold AuthToken_headers.
  destruct (token_type tok) as [| | |s| |c l|]; try (eexists; split; [reflexivity|discriminate]).
  - by destruct (Hs s).
  - destruct (attrs_of l w !! "capitalize"); eexists; split; try reflexivity; discriminate.
Qed.

Lemma AuthToken_headers_bad_type_witness :
  exists e, AuthToken_headers format_str (wld empty_state)
              (mkAuthToken (VStr "bob") (VInt 0) (seconds 100) VNone (VStr "abc")) (seconds 200) = Raise e /\
            e <> VoatExpiredToken.
Proof.
  apply (AuthToken_headers_bad_type format_str (wld empty_state)
           (mkAuthToken (VStr "bob") (VInt 0) (seconds 100) VNone (VStr "abc")) (seconds 200)).
  discriminate.
Defined.

(** X8. [get_auth] returns a token exactly when the response is ok, its
    body is a JSON object with the fields [userName], [access_token],
    [token_type] and [expires_in], and [AuthToken] accepts them; it returns
    [None] exactly when the response is not ok and [handle_code] returns
    without raising. *)
Theorem AuthToken_get_auth_result (handle_code : Z -> result unit) (limit : option nat)
    (req : response) (now : spec_float) :
  (forall tok,
     AuthToken_get_auth handle_code limit req now = Ok (Some tok) <->
     ok req = true /\
     exists fields user tk ty e,
       body req = BodyObject fields /\
       fields !! "userName" = Some user /\ fields !! "access_token" = Some tk /\
       fields !! "token_type" = Some ty /\ fields !! "expires_in" = Some e /\
       AuthToken_init limit user tk ty e now = Ok tok) /\
  (AuthToken_get_auth handle_code limit req now = Ok None <->
   ok req = false /\ handle_code (status_code req) = Ok tt).
Proof.
  unfold AuthToken_get_auth, body_index. split.
  - intros tok. split.
    + destruct (ok req); [|by destruct (handle_code _)].
      destruct (body req) as [|fields|]; try discriminate.
      destruct (fields !! "userName") as [user|] eqn:E1; [|discriminate].
      destruct (fields !! "access_token") as [tk|] eqn:E2; [|discriminate].
      destruct (fields !! "token_type") as [ty|] eqn:E3; [|discriminate].
      destruct (fields !! "expires_in") as [e|] eqn:E4; [|discriminate].
      destruct (AuthToken_init limit user tk ty e now) as [t|] eqn:E5; [|discriminate].
      intros [= <-]. split; [done|]. by exists fields, user, tk, ty, e.
    + intros (-> & fields & user & tk & ty & e & -> & -> & -> & -> & -> & ->). done.
  - destruct (ok req).
    + split; [|by intros [? _]].
      destruct (body req) as [|fields|]; try discriminate.
      destruct (fields !! "userName"); [|discriminate].
      destruct (fields !! "access_token"); [|discriminate].
      destruct (fields !! "token_type"); [|discriminate].
      destruct (fields !! "expires_in"); [|discriminate].
      by destruct (AuthToken_init _ _ _ _ _ now).
    + destruct (handle_code (status_code req)) as [[]|]; split; try done.
      by intros [_ ?].
Qed.

Lemma AuthToken_get_auth_result_witness :
  AuthToken_get_auth handle_401 None (mkResponse false 500 BodyInvalid) (seconds 0)
  = Ok None.
Proof.
  apply (proj2 (AuthToken_get_auth_result handle_401 None
                  (mkResponse false 500 BodyInvalid) (seconds 0))).
  split; reflexivity.
Defined.

(** ** Construction *)







Lemma init_bag_accepted c kwargs : forall a,
  first_refused c kwargs = None -> is_Some (init_bag c kwargs a).
Proof.
  unfold first_refused.
  induction kwargs as [|[k v] rest IH]; intros a; simpl; [eauto|].
  destruct (attr_slot c k); [|discriminate]. apply IH.
Qed.

Lemma setattr_refused c l k v s :
  attr_slot c k = None -> String.eqb k "self" = false ->
  setattr c l k v s = (Raise (setattr_error k), s).
Proof.
  intros Hk Hs. unfold attr_slot, reserved_name in Hk. rewrite Hs in Hk.
  unfold setattr, setattr_error. revert Hk.
  destruct (String.eqb k "__class__"); [done|].
  destruct (String.eqb k "__dict__"); [done|].
  destruct (String.eqb k "__weakref__"); [done|]. simpl.
  destruct c; try discriminate.
  by destruct (String.eqb k "parent" || String.eqb k "children").
Qed.

Lemma VoatObject_init_refused c l kwargs k : forall h r cs a,
  has_self kwargs = false ->
  first_refused c kwargs = Some k ->
  exists a',
    VoatObject_init c l kwargs
      {| wld := {| heap := <[l := OInst a]> h; remote := r |}; calls := cs |} =
    (Raise (setattr_error k),
     {| wld := {| heap := <[l := OInst a']> h; remote := r |}; calls := cs |}).
Proof.
  unfold first_refused, has_self.
  induction kwargs as [|[k0 v] rest IH]; intros h r cs a; simpl; [discriminate|].
  intros [Hs Hrest]%orb_false_iff.
  destruct (attr_slot c k0) as [k'|] eqn:Hk.
  - intros Hf. unfold bind. rewrite (setattr_slot _ _ _ _ _ _ Hk).
    unfold store, modify. simpl. rewrite store_attr_set. by apply IH.
  - intros [= <-]. exists a. unfold bind. by rewrite (setattr_refused _ _ _ _ _ Hk Hs).
Qed.

Lemma construct_self c kwargs s :
  has_self kwargs = true ->
  construct c kwargs s = (Raise TypeError, with_object (next_loc (wld s)) (OInst ∅) s).
Proof.
  intros Hs. unfold construct, alloc, with_object. destruct s as [[h r] cs]. simpl.
  by rewrite Hs.
Qed.

Lemma construct_refused c kwargs s k :
  has_self kwargs = false ->
  first_refused c kwargs = Some k ->
  exists a, construct c kwargs s =
            (Raise (setattr_error k), with_object (next_loc (wld s)) (OInst a) s).
Proof.
  intros Hs Hk. unfold construct, alloc, with_object. destruct s as [[h r] cs]. simpl.
  rewrite Hs.
  destruct (VoatObject_init_refused c (next_loc {| heap := h; remote := r |})
              kwargs k h r cs ∅ Hs Hk) as [a Ha].
  exists a. unfold bind at 1. by rewrite Ha.
Qed.

Lemma construct_cases c kwargs s :
  (exists e a, construct c kwargs s =
               (Raise e, with_object (next_loc (wld s)) (OInst a) s)) \/
  (exists a, init_bag c kwargs ∅ = Some a /\
             construct c kwargs s =
             (Ok (VObj c (next_loc (wld s))),
              with_object (next_loc (wld s)) (OInst (finish_bag c a)) s)).
Proof.
  destruct (has_self kwargs) eqn:Hs.
  { left. eexists _, _. by apply construct_self. }
  destruct (first_refused c kwargs) as [k|] eqn:Hk.
  - left. destruct (construct_refused c kwargs s k Hs Hk) as [a Ha]. eauto.
  - right. destruct (init_bag_accepted c kwargs ∅ Hk) as [a Ha].
    exists a. split; [done|]. by apply construct_ok.
Qed.

Lemma same_except_with_object l o s : same_except l s (with_object l o s).
Proof.
  repeat split. intros l' Hl. by apply heap_with_object_ne.
Qed.

Lemma same_except_refl l s : same_except l s s.
Proof. by repeat split. Qed.

Lemma construct_frame c kwargs s :
  same_except (next_loc (wld s)) s (snd (construct c kwargs s)).
Proof.
  destruct (construct_cases c kwargs s) as [(e & a & ->)|(a & _ & ->)];
    apply same_except_with_object.
Qed.





Lemma init_bag_other c kwargs k' : forall a a',
  init_bag c kwargs a = Some a' ->
  ~ In (Some k') (slots_of c kwargs) ->
  a' !! k' = a !! k'.
Proof.
  induction kwargs as [|[k v] rest IH]; intros a a'; simpl.
  - by intros [= <-].
  - destruct (attr_slot c k) as [k0|] eqn:Hk; [|discriminate].
    intros Hb Hn. rewrite (IH _ _ Hb) by tauto.
    apply lookup_insert_ne. intros ->. tauto.
Qed.

Lemma init_bag_lookup c kwargs k v k' : forall a a',
  init_bag c kwargs a = Some a' ->
  NoDup (slots_of c kwargs) ->
  In (k, v) kwargs -> attr_slot c k = Some k' ->
  a' !! k' = Some v.
Proof.
  induction kwargs as [|[k0 v0] rest IH]; intros a a'; simpl; [done|].
  destruct (attr_slot c k0) as [k0'|] eqn:Hk0; [|discriminate].
  intros Hb Hd [Heq|Hin] Hk.
  - injection Heq as -> ->. rewrite Hk in Hk0. injection Hk0 as <-.
    apply NoDup_cons in Hd as [Hn _].
    rewrite (init_bag_other _ _ _ _ _ Hb); [apply lookup_insert_eq|].
    by rewrite <- list_elem_of_In.
  - apply NoDup_cons in Hd as [_ Hd]. by apply (IH _ _ Hb Hd Hin Hk).
Qed.

(** X11. Keyword arguments become attributes: when the constructor
    succeeds and no two keywords are stored under the same name, every
    keyword argument can be read back under the name it is stored under
    (a [Submission] excepted for its [comments]). *)
Theorem construct_keeps_kwargs (c : cls) (kwargs : list (string * value)) (s s1 : state)
    (l : loc) (k k' : string) (v : value) :
  construct c kwargs s = (Ok (VObj c l), s1) ->
  NoDup (slots_of c kwargs) ->
  In (k, v) kwargs -> attr_slot c k = Some k' ->
  (c = Submission -> k' <> "_comments") ->
  attrs_of l (wld s1) !! k' = Some v.
Proof.
  intros Hc Hd Hin Hk Hne.
  destruct (construct_cases c kwargs s) as [(e & a & Ha)|(a & Ha & Hok)]; [congruence|].
  rewrite Hok in Hc. injection Hc as <- <-.
    rewrite attrs_of_with_object.
    pose proof (init_bag_lookup c kwargs k v k' ∅ a Ha Hd Hin Hk) as Hl.
    destruct c; simpl; [|done..]. rewrite lookup_insert_ne; [done|].
    intros Heq. by apply (Hne eq_refl).
Qed.

Lemma construct_keeps_kwargs_witness :
  attrs_of 1%positive
    (wld (snd (construct Subverse [("name", VStr "news"); ("posts", VNone)] empty_state)))
    !! "name" = Some (VStr "news").
Proof.
  apply (construct_keeps_kwargs Subverse [("name", VStr "news"); ("posts", VNone)]
           empty_state _ 1%positive "name" "name" (VStr "news")).
  - vm_compute. reflexivity.
  - vm_compute. apply NoDup_cons. split; [|apply NoDup_singleton].
    intros [=]%list_elem_of_singleton.
  - left. reflexivity.
  - reflexivity.
  - discriminate.
Defined.

(** ** Relations: the fetch *)

Lemma bind_store_getfield self k v s :
  bind (store self k v) (fun _ => getfield self k) s =
  (Ok v, {| wld := store_attr self k v (wld s); calls := calls s |}).
Proof.
  unfold bind, store, modify. apply getfield_ok. cbn [wld].
  rewrite attrs_of_store_eq. apply lookup_insert_eq.
Qed.

Section Fetch.

Variable api : Voat.

Lemma Submission_comments_fetch self s :
  unresolved "_comments" self s ->
  attrs_of self (wld s) !! "voat" = Some VVoat ->
  Submission_comments api self s =
  let post_id := default (VInt 0) (attrs_of self (wld s) !! "post_id") in
  let subverse := default VNone (attrs_of self (wld s) !! "subverse") in
  let cs := (calls s ++ [CallFetchComments post_id subverse])%list in
  match fetch_comments api post_id subverse (wld s) with
  | (Ok r, w') => (Ok r, {| wld := store_attr self "_comments" r w'; calls := cs |})
  | (Raise e, w') => (Raise e, {| wld := w'; calls := cs |})
  end.
Proof.
  intros Hc Hv. unfold Submission_comments. open_cell Hc. read_attr.
  rewrite Hv. cbn [default from_option id is_none negb get_method].
  rewrite bind_assoc, bind_ret. read_attr. read_attr.
  rewrite bind_assoc, bind_invoke. cbn zeta.
  destruct (fetch_comments api _ _ (wld s)) as [[r|e] w']; [|reflexivity].
  apply bind_store_getfield.
Qed.

Lemma Subverse_posts_fetch self s name :
  unresolved "_posts" self s ->
  attrs_of self (wld s) !! "voat" = Some VVoat ->
  attrs_of self (wld s) !! "name" = Some name ->
  Subverse_posts api self s =
  let cs := (calls s ++ [CallGetSubversePosts name])%list in
  match get_subverse_posts api name (wld s) with
  | (Ok r, w') => (Ok r, {| wld := store_attr self "_posts" r w'; calls := cs |})
  | (Raise e, w') => (Raise e, {| wld := w'; calls := cs |})
  end.
Proof.
  intros Hc Hv Hn. unfold Subverse_posts. open_cell Hc. read_attr.
  rewrite Hv. cbn [default from_option id is_none negb get_method].
  rewrite bind_assoc, bind_ret. rewrite bind_assoc, (bind_getfield _ _ _ _ _ Hn).
  rewrite bind_assoc, bind_invoke. cbn zeta.
  destruct (get_subverse_posts api _ (wld s)) as [[r|e] w']; [|reflexivity].
  apply bind_store_getfield.
Qed.

Lemma Comment_parent_fetch_ok self s pid r w' :
  unresolved "_parent" self s ->
  attrs_of self (wld s) !! "voat" = Some VVoat ->
  attrs_of self (wld s) !! "parent_id" = Some pid -> pid <> VNone ->
  get_comment api pid (wld s) = (Ok r, w') ->
  Comment_parent api self s =
  (Ok r, {| wld := store_attr self "_parent" r w';
            calls := calls s ++ [CallGetComment pid] |}).
Proof.
  intros Hc Hv Hp Hn Hf. unfold Comment_parent. open_cell Hc. read_attr. read_attr.
  rewrite Hv, Hp. cbn [default from_option id is_none negb andb].
  replace (negb (is_none pid)) with true by (destruct pid; try reflexivity; congruence).
  unfold bind at 1, try_except. cbn [get_method].
  rewrite bind_ret, (bind_getfield _ _ _ _ _ Hp), bind_invoke, Hf.
  unfold store, modify. apply getfield_ok. cbn [wld].
  rewrite attrs_of_store_eq. apply lookup_insert_eq.
Qed.

Lemma Comment_children_fetch_cases self s sid :
  unresolved "_children" self s ->
  attrs_of self (wld s) !! "voat" = Some VVoat ->
  attrs_of self (wld s) !! "submission_id" = Some sid -> sid <> VNone ->
  Comment_children api self s =
  let subverse := default VNone (attrs_of self (wld s) !! "subverse") in
  let cs := (calls s ++ [CallFetchComments sid subverse])%list in
  match fetch_comments api sid subverse (wld s) with
  | (Ok comments, w') =>
      (exec (let! items := iterate comments in
             let! kept := children_of self items in
             let! r := new_list kept in
             store self "_children" r) in getfield self "_children")
        {| wld := w'; calls := cs |}
  | (Raise e, w') => (Raise e, {| wld := w'; calls := cs |})
  end.
Proof.
  intros Hc Hv Hs Hn. unfold Comment_children. open_cell Hc. read_attr. read_attr.
  rewrite Hv, Hs. cbn [default from_option id is_none negb andb].
  replace (negb (is_none sid)) with true by (destruct sid; try reflexivity; congruence).
  cbn [andb get_method].
  rewrite bind_assoc, bind_ret.
  rewrite bind_assoc, (bind_getfield _ _ _ _ _ Hs). read_attr.
  rewrite bind_assoc, bind_invoke. cbn zeta.
  by destruct (fetch_comments api _ _ (wld s)) as [[r|e] w'].
Qed.

End Fetch.

(** X12. Assignment to [comments] or [posts] fills the cell: after
    assigning a value other than [None], reading the relation returns that
    value, fetches nothing and changes nothing. *)
Theorem relation_assignment_read (api : Voat) (self : loc) (v : value) (s : state) :
  v <> VNone ->
  (exists s1, Submission_set_comments self v s = (Ok tt, s1) /\
              calls s1 = calls s /\
              Submission_comments api self s1 = (Ok v, s1)) /\
  (exists s1, Subverse_set_posts self v s = (Ok tt, s1) /\
              calls s1 = calls s /\
              Subverse_posts api self s1 = (Ok v, s1)).
Proof.
  intros Hv. split.
  - exists {| wld := store_attr self "_comments" v (wld s); calls := calls s |}.
    repeat split. apply Submission_comments_hit; [|done].
    cbn [wld]. rewrite attrs_of_store_eq. apply lookup_insert_eq.
  - exists {| wld := store_attr self "_posts" v (wld s); calls := calls s |}.
    repeat split. apply Subverse_posts_hit; [|done].
    cbn [wld]. rewrite attrs_of_store_eq. apply lookup_insert_eq.
Qed.

Lemma relation_assignment_read_witness :
  exists s1, Subverse_set_posts 1%positive (VInt 3) detached_state = (Ok tt, s1) /\
             calls s1 = calls detached_state /\
             Subverse_posts thread_api 1%positive s1 = (Ok (VInt 3), s1).
Proof.
  apply (proj2 (relation_assignment_read thread_api 1%positive (VInt 3) detached_state
                  ltac:(discriminate))).
Defined.

(** X13. Assigning [None] to [comments] empties the cell: on a
    [Submission] with the handle attached, the access that follows fetches
    once more, whatever the cell held before. *)
Theorem Submission_comments_reset (api : Voat) (self : loc) (s : state) :
  attrs_of self (wld s) !! "voat" = Some VVoat ->
  exists s1,
    Submission_set_comments self VNone s = (Ok tt, s1) /\
    calls (snd (Submission_comments api self s1)) =
    (calls s ++ [CallFetchComments
                   (default (VInt 0) (attrs_of self (wld s) !! "post_id"))
                   (default VNone (attrs_of self (wld s) !! "subverse"))])%list.
Proof.
  intros Hv.
  exists {| wld := store_attr self "_comments" VNone (wld s); calls := calls s |}.
  split; [reflexivity|].
  rewrite Submission_comments_fetch.
  - cbn [wld calls]. rewrite attrs_of_store_eq, !lookup_insert_ne by done.
    by destruct (fetch_comments api _ _ _) as [[r|e] w'].
  - unfold unresolved. cbn [wld]. by rewrite attrs_of_store_eq, lookup_insert_eq.
  - cbn [wld]. by rewrite attrs_of_store_eq, lookup_insert_ne.
Qed.

Lemma Submission_comments_reset_witness :
  exists s1,
    Submission_set_comments 1%positive VNone
      (snd (Submission_comments thread_api 1%positive post_state)) = (Ok tt, s1) /\
    length (calls (snd (Submission_comments thread_api 1%positive s1))) = 2%nat.
Proof.
  destruct (Submission_comments_reset thread_api 1%positive
              (snd (Submission_comments thread_api 1%positive post_state)))
    as (s1 & E & Hc); [vm_compute; reflexivity|].
  exists s1. split; [exact E|]. rewrite Hc. vm_compute. reflexivity.
Defined.

(** X14. The first access of [comments] on a [Submission] with the handle
    attached calls [fetch_comments] once, with the post id of the entity
    ([0] when it has none) and its subverse ([None] when it has none); when
    the fetch returns, its result is returned and stored in the cell, and
    nothing else is changed after the fetch. *)
Theorem Submission_comments_fetches (api : Voat) (self : loc) (s : state)
    (r : value) (w' : world) :
  unresolved "_comments" self s ->
  attrs_of self (wld s) !! "voat" = Some VVoat ->
  fetch_comments api (default (VInt 0) (attrs_of self (wld s) !! "post_id"))
                     (default VNone (attrs_of self (wld s) !! "subverse")) (wld s)
    = (Ok r, w') ->
  Submission_comments api self s =
  (Ok r, {| wld := store_attr self "_comments" r w';
            calls := calls s ++
                     [CallFetchComments
                        (default (VInt 0) (attrs_of self (wld s) !! "post_id"))
                        (default VNone (attrs_of self (wld s) !! "subverse"))] |}).
Proof.
  intros Hc Hv Hf. rewrite (Submission_comments_fetch api self s Hc Hv).
  cbn zeta. by rewrite Hf.
Qed.

Lemma Submission_comments_fetches_witness :
  calls (snd (Submission_comments thread_api 1%positive post_state)) =
  [CallFetchComments (VInt 7) (VStr "news")].
Proof.
  rewrite (Submission_comments_fetches thread_api 1%positive post_state (VList 6%positive)
             (snd (fetch_comments thread_api (VInt 7) (VStr "news") (wld post_state))));
    vm_compute; reflexivity.
Defined.

(** X15. The first access of [posts] on a [Subverse] with the handle
    attached calls [get_subverse_posts] once, with the name of the entity;
    when the fetch returns, its result is returned and stored in the cell,
    and nothing else is changed after the fetch. *)
Theorem Subverse_posts_fetches (api : Voat) (self : loc) (s : state)
    (name r : value) (w' : world) :
  unresolved "_posts" self s ->
  attrs_of self (wld s) !! "voat" = Some VVoat ->
  attrs_of self (wld s) !! "name" = Some name ->
  get_subverse_posts api name (wld s) = (Ok r, w') ->
  Subverse_posts api self s =
  (Ok r, {| wld := store_attr self "_posts" r w';
            calls := calls s ++ [CallGetSubversePosts name] |}).
Proof.
  intros Hc Hv Hn Hf. rewrite (Subverse_posts_fetch api self s name Hc Hv Hn).
  cbn zeta. by rewrite Hf.
Qed.

Lemma Subverse_posts_fetches_witness :
  Subverse_posts silent_api 1%positive subverse_state =
  (Ok VNone, {| wld := store_attr 1%positive "_posts" VNone (wld subverse_state);
                calls := calls subverse_state ++ [CallGetSubversePosts (VStr "news")] |}).
Proof.
  apply (Subverse_posts_fetches silent_api 1%positive subverse_state (VStr "news") VNone
           (wld subverse_state)); vm_compute; reflexivity.
Defined.

(** X16. A fetch that raises is not remembered: [comments], [posts] and
    [children] pass the error on and store nothing, so that the state after
    the access is the state the handle left, with the call recorded. *)
Theorem lazy_fetch_error_propagates (api : Voat) (self : loc) (s : state)
    (e : exn) (w' : world) :
  attrs_of self (wld s) !! "voat" = Some VVoat ->
  (unresolved "_comments" self s ->
   fetch_comments api (default (VInt 0) (attrs_of self (wld s) !! "post_id"))
                      (default VNone (attrs_of self (wld s) !! "subverse")) (wld s)
     = (Raise e, w') ->
   exists cs, Submission_comments api self s = (Raise e, {| wld := w'; calls := cs |})) /\
  (forall name,
     unresolved "_posts" self s ->
     attrs_of self (wld s) !! "name" = Some name ->
     get_subverse_posts api name (wld s) = (Raise e, w') ->
     exists cs, Subverse_posts api self s = (Raise e, {| wld := w'; calls := cs |})) /\
  (forall sid,
     unresolved "_children" self s ->
     attrs_of self (wld s) !! "submission_id" = Some sid -> sid <> VNone ->
     fetch_comments api sid (default VNone (attrs_of self (wld s) !! "subverse")) (wld s)
       = (Raise e, w') ->
     exists cs, Comment_children api self s = (Raise e, {| wld := w'; calls := cs |})).
Proof.
  intros Hv. split; [|split].
  - intros Hc Hf. rewrite (Submission_comments_fetch api self s Hc Hv).
    cbn zeta. rewrite Hf. eauto.
  - intros name Hc Hn Hf. rewrite (Subverse_posts_fetch api self s name Hc Hv Hn).
    cbn zeta. rewrite Hf. eauto.
  - intros sid Hc Hs Hn Hf. rewrite (Comment_children_fetch_cases api self s sid Hc Hv Hs Hn).
    cbn zeta. rewrite Hf. eauto.
Qed.

Lemma lazy_fetch_error_propagates_witness :
  exists cs, Subverse_posts thread_api 1%positive subverse_state =
             (Raise (ApiError 404), {| wld := wld subverse_state; calls := cs |}).
Proof.
  apply (proj1 (proj2 (lazy_fetch_error_propagates thread_api 1%positive subverse_state
                         (ApiError 404) (wld subverse_state) ltac:(vm_compute; reflexivity)))
           (VStr "news")); vm_compute; reflexivity.
Defined.

(** X17. On a [Subverse] with the handle attached but without a [name],
    the first access of [posts] raises [AttributeError] before any fetch:
    the state is unchanged. *)
Theorem Subverse_posts_without_name (api : Voat) (self : loc) (s : state) :
  unresolved "_posts" self s ->
  attrs_of self (wld s) !! "voat" = Some VVoat ->
  attrs_of self (wld s) !! "name" = None ->
  Subverse_posts api self s = (Raise (AttributeError "name"), s).
Proof.
  intros Hc Hv Hn. unfold Subverse_posts. open_cell Hc. read_attr.
  rewrite Hv. cbn [default from_option id is_none negb get_method].
  rewrite bind_assoc, bind_ret. rewrite bind_assoc.
  unfold bind at 1. unfold getfield at 1. unfold bind at 1, gets at 1. by rewrite Hn.
Qed.

Lemma Subverse_posts_without_name_witness :
  Subverse_posts thread_api 1%positive reply_state =
  (Raise (AttributeError "name"), reply_state).
Proof.
  apply (Subverse_posts_without_name thread_api 1%positive reply_state);
    vm_compute; reflexivity.
Defined.

(** X18. On a [Comment] with the handle attached and a [parent_id] other
    than [None], the first access of [parent] calls [get_comment] once with
    that id; when the fetch returns, its result is returned, whatever it
    is, and stored in the cell. *)
Theorem Comment_parent_fetches (api : Voat) (self : loc) (s : state)
    (pid r : value) (w' : world) :
  unresolved "_parent" self s ->
  attrs_of self (wld s) !! "voat" = Some VVoat ->
  attrs_of self (wld s) !! "parent_id" = Some pid -> pid <> VNone ->
  get_comment api pid (wld s) = (Ok r, w') ->
  Comment_parent api self s =
  (Ok r, {| wld := store_attr self "_parent" r w';
            calls := calls s ++ [CallGetComment pid] |}).
Proof. apply Comment_parent_fetch_ok. Qed.

Lemma Comment_parent_fetches_witness :
  fst (Comment_parent silent_api 1%positive reply_state) = Ok VNone.
Proof.
  rewrite (Comment_parent_fetches silent_api 1%positive reply_state (VInt 10) VNone
             (wld reply_state)); try (vm_compute; reflexivity).
  discriminate.
Defined.

(** X19. On a [Comment] whose [voat] is neither [None] nor the handle,
    the failure to call [get_comment] on it is swallowed like a failed
    fetch: the first access of [parent] returns a new [Comment] without
    attributes and records no fetch. *)
Theorem Comment_parent_bad_handle (api : Voat) (self : loc) (s : state) (v pid : value) :
  unresolved "_parent" self s ->
  attrs_of self (wld s) !! "voat" = Some v -> v <> VNone -> v <> VVoat ->
  attrs_of self (wld s) !! "parent_id" = Some pid -> pid <> VNone ->
  allocated self (wld s) = true ->
  exists r s1, Comment_parent api self s = (Ok r, s1) /\
               calls s1 = calls s /\ fresh_placeholder (wld s) s1 r.
Proof.
  intros Hc Hv Hn1 Hn2 Hp Hn3 Ha. apply allocated_not_none in Ha.
  unfold Comment_parent. open_cell Hc. read_attr. read_attr.
  rewrite Hv, Hp. cbn [default from_option id].
  replace (negb (is_none v)) with true by (destruct v; try reflexivity; congruence).
  replace (negb (is_none pid)) with true by (destruct pid; try reflexivity; congruence).
  cbn [andb].
  match goal with
  | |- context [try_except ?m ?h] =>
      assert (exists e, m s = (Raise e, s)) as [e He]
  end.
  { destruct v as [|b|n|t|l|c l|]; try congruence; cbn [get_method];
      try (eexists; reflexivity).
    rewrite bind_assoc, bind_gets.
    destruct (attrs_of l (wld s) !! "get_comment"); [|eexists; reflexivity].
    rewrite bind_ret, (bind_getfield _ _ _ _ _ Hp). eexists. reflexivity. }
  rewrite (bind_try_raise _ _ _ _ _ _ He).
  destruct (resolve_placeholder self s) as (s1 & E & Hk & Hl).
  exists (VObj Comment (next_loc (wld s))), s1. repeat split; [done..|].
  exists (next_loc (wld s)). auto using next_loc_fresh.
Qed.

Lemma Comment_parent_bad_handle_witness :
  exists r s1, Comment_parent thread_api 1%positive mistyped_comment_state = (Ok r, s1) /\
               calls s1 = calls mistyped_comment_state /\
               fresh_placeholder (wld mistyped_comment_state) s1 r.
Proof.
  apply (Comment_parent_bad_handle thread_api 1%positive mistyped_comment_state
           (VStr "voat") (VInt 10)); try (vm_compute; reflexivity); discriminate.
Defined.

(** X20. When [fetch_comments] returns something that cannot be iterated
    (neither a list nor a string, [None] for one), the access of [children]
    raises [TypeError] after the fetch and stores nothing. *)
Theorem Comment_children_not_iterable (api : Voat) (self : loc) (s : state)
    (sid v : value) (w' : world) :
  unresolved "_children" self s ->
  attrs_of self (wld s) !! "voat" = Some VVoat ->
  attrs_of self (wld s) !! "submission_id" = Some sid -> sid <> VNone ->
  fetch_comments api sid (default VNone (attrs_of self (wld s) !! "subverse")) (wld s)
    = (Ok v, w') ->
  is_list v = false -> (forall t, v <> VStr t) ->
  Comment_children api self s =
  (Raise TypeError,
   {| wld := w';
      calls := calls s ++
               [CallFetchComments sid (default VNone (attrs_of self (wld s) !! "subverse"))] |}).
Proof.
  intros Hc Hv Hs Hn Hf Hl Ht.
  rewrite (Comment_children_fetch_cases api self s sid Hc Hv Hs Hn). cbn zeta. rewrite Hf.
  destruct v; try discriminate; try reflexivity. by destruct (Ht s0).
Qed.

Lemma Comment_children_not_iterable_witness :
  fst (Comment_children silent_api 1%positive reply_state) = Raise TypeError.
Proof.
  rewrite (Comment_children_not_iterable silent_api 1%positive reply_state (VInt 7) VNone
             (wld reply_state)); try (vm_compute; reflexivity); discriminate.
Defined.

(** X21. On a [Comment] without a [comment_id], the first access of
    [children] raises [AttributeError] when the fetched list has a comment
    in it, and returns a new empty list when the fetched list is empty. *)
Theorem Comment_children_without_id (api : Voat) (self : loc) (s : state)
    (sid : value) (lc : loc) (w' : world) :
  unresolved "_children" self s ->
  attrs_of self (wld s) !! "voat" = Some VVoat ->
  attrs_of self (wld s) !! "submission_id" = Some sid -> sid <> VNone ->
  fetch_comments api sid (default VNone (attrs_of self (wld s) !! "subverse")) (wld s)
    = (Ok (VList lc), w') ->
  attrs_of self w' !! "comment_id" = None ->
  (items_of lc w' <> [] ->
   exists s1, Comment_children api self s = (Raise (AttributeError "comment_id"), s1)) /\
  (items_of lc w' = [] -> allocated self w' = true ->
   exists l s1, Comment_children api self s = (Ok (VList l), s1) /\
                heap w' !! l = None /\ heap (wld s1) !! l = Some (OList [])).
Proof.
  intros Hc Hv Hs Hn Hf Hi.
  rewrite (Comment_children_fetch_cases api self s sid Hc Hv Hs Hn). cbn zeta. rewrite Hf.
  cbn [iterate]. rewrite bind_assoc, bind_gets. cbn [wld]. split.
  - destruct (items_of lc w') as [|i rest]; [done|]. intros _. eexists.
    rewrite bind_assoc. cbn [children_of].
    rewrite bind_assoc, bind_gets, bind_assoc.
    unfold bind at 1. unfold getfield at 1. unfold bind at 1, gets at 1.
    cbn [wld]. rewrite Hi. reflexivity.
  - intros -> Ha. apply allocated_not_none in Ha. cbn [children_of].
    rewrite bind_assoc, bind_ret.
    match goal with
    | |- context [bind _ _ ?s0] =>
        destruct (resolve_new_list "_children" self [] s0) as (s1 & E & _ & Hh)
    end.
    exists (next_loc w'), s1. split; [exact E|]. split; [apply next_loc_fresh|].
    exact (Hh Ha).
Qed.

Lemma Comment_children_without_id_witness :
  exists s1, Comment_children thread_api 1%positive anonymous_comment_state =
             (Raise (AttributeError "comment_id"), s1).
Proof.
  apply (proj1 (Comment_children_without_id thread_api 1%positive anonymous_comment_state
                  (VInt 7) 6%positive
                  (snd (fetch_comments thread_api (VInt 7) VNone (wld anonymous_comment_state)))
                  ltac:(vm_compute; reflexivity) ltac:(vm_compute; reflexivity)
                  ltac:(vm_compute; reflexivity) ltac:(discriminate)
                  ltac:(vm_compute; reflexivity) ltac:(vm_compute; reflexivity))).
  vm_compute. discriminate.
Defined.

(** X22. The parent of a comment without a parent has no parent either:
    on a top-level [Comment], [parent] is a new [Comment], and the
    [parent] of that one is yet another new [Comment]; neither access
    fetches anything. *)
Theorem Comment_parent_chain (api : Voat) (self : loc) (s : state) :
  unresolved "parent_id" self s ->
  unresolved "_parent" self s ->
  allocated self (wld s) = true ->
  exists p s1 p2 s2,
    Comment_parent api self s = (Ok (VObj Comment p), s1) /\
    Comment_parent api p s1 = (Ok (VObj Comment p2), s2) /\
    p <> self /\ p2 <> self /\ p2 <> p /\ calls s2 = calls s.
Proof.
  intros Hp Hc Ha. apply allocated_not_none in Ha.
  destruct (Comment_parent_no_fetch api self s Hc (or_intror Hp)) as (s1 & E1 & Hk1 & Hl1).
  specialize (Hl1 Ha).
  assert (attrs_of (next_loc (wld s)) (wld s1) = ∅) as He.
  { unfold attrs_of. by rewrite Hl1. }
  destruct (Comment_parent_no_fetch api (next_loc (wld s)) s1) as (s2 & E2 & Hk2 & _).
  { unfold unresolved. by rewrite He. }
  { left. unfold unresolved. by rewrite He. }
  exists (next_loc (wld s)), s1, (next_loc (wld s1)), s2.
  split; [exact E1|]. split; [exact E2|].
  assert (heap (wld s1) !! self <> None) as Hs1.
  { pose proof (Comment_parent_post api self s _ s1 E1) as Hpost.
    unfold attrs_of in Hpost. destruct (heap (wld s1) !! self); [done|].
    by rewrite lookup_empty in Hpost. }
  repeat split.
  - intros Heq. apply Ha. rewrite <- Heq. apply next_loc_fresh.
  - intros Heq. apply Hs1. rewrite <- Heq. apply next_loc_fresh.
  - intros Heq. pose proof (next_loc_fresh (wld s1)) as Hf. rewrite Heq in Hf. congruence.
  - congruence.
Qed.

Lemma Comment_parent_chain_witness :
  exists p s1 p2 s2,
    Comment_parent thread_api 1%positive top_comment_state = (Ok (VObj Comment p), s1) /\
    Comment_parent thread_api p s1 = (Ok (VObj Comment p2), s2) /\
    p <> 1%positive /\ p2 <> 1%positive /\ p2 <> p /\ calls s2 = calls top_comment_state.
Proof.
  apply (Comment_parent_chain thread_api 1%positive top_comment_state);
    vm_compute; reflexivity.
Defined.

(** ** What an access without a fetch leaves alone *)

Lemma resolve_new_list_eq cell self xs s :
  (exec (let! r := new_list xs in store self cell r) in getfield self cell) s =
  (Ok (VList (next_loc (wld s))),
   {| wld := store_attr self cell (VList (next_loc (wld s)))
               (snd (alloc (OList xs) (wld s)));
      calls := calls s |}).
Proof.
  unfold bind, new_list, alloc, store, modify. cbn [fst snd wld calls].
  rewrite getfield_ok with (v := VList (next_loc (wld s))); [reflexivity|].
  cbn [wld]. rewrite attrs_of_store_eq. apply lookup_insert_eq.
Qed.

Lemma resolve_placeholder_eq self s :
  (exec (let! r := construct Comment [] in store self "_parent" r) in
   getfield self "_parent") s =
  (Ok (VObj Comment (next_loc (wld s))),
   {| wld := store_attr self "_parent" (VObj Comment (next_loc (wld s)))
               (snd (alloc (OInst ∅) (wld s)));
      calls := calls s |}).
Proof.
  unfold bind at 1. unfold bind at 1.
  rewrite (construct_ok Comment [] s ∅ eq_refl).
  unfold store, modify. cbn [fst snd].
  rewrite getfield_ok with (v := VObj Comment (next_loc (wld s))); [reflexivity|].
  cbn [wld]. rewrite attrs_of_store_eq. apply lookup_insert_eq.
Qed.

Lemma touched_only_alloc_store self cell v o s :
  heap (wld s) !! self <> None ->
  touched_only self cell s
    {| wld := store_attr self cell v (snd (alloc o (wld s))); calls := calls s |}.
Proof.
  intros Ha.
  assert (next_loc (wld s) <> self) as Hne.
  { intros Heq. apply Ha. rewrite <- Heq. apply next_loc_fresh. }
  repeat split; cbn [wld calls].
  - intros l' Hl Hal. rewrite heap_store_ne by done.
    unfold alloc. cbn [snd heap]. apply lookup_insert_ne.
    intros Heq. apply Hal. rewrite <- Heq. apply next_loc_fresh.
  - intros k Hk. rewrite attrs_of_store_eq, lookup_insert_ne by done.
    unfold attrs_of, alloc. cbn [snd heap]. by rewrite lookup_insert_ne.
Qed.

(** X23. An access that resolves a relation without a fetch (no handle
    attached) changes one thing only: the cell of that relation on the
    entity itself. The other attributes of the entity, the objects that
    existed before and the record of fetches are as they were. *)
Theorem lazy_access_touches_cell_only (api : Voat) (self : loc) (s : state) :
  allocated self (wld s) = true ->
  unresolved "voat" self s ->
  (unresolved "_comments" self s ->
   touched_only self "_comments" s (snd (Submission_comments api self s))) /\
  (unresolved "_posts" self s ->
   touched_only self "_posts" s (snd (Subverse_posts api self s))) /\
  (unresolved "_parent" self s ->
   touched_only self "_parent" s (snd (Comment_parent api self s))) /\
  (unresolved "_children" self s ->
   touched_only self "_children" s (snd (Comment_children api self s))).
Proof.
  intros Ha Hv. apply allocated_not_none in Ha. repeat apply conj; intros Hc.
  - unfold Submission_comments. open_cell Hc. read_attr. rewrite Hv.
    cbn [negb is_none]. rewrite resolve_new_list_eq. by apply touched_only_alloc_store.
  - unfold Subverse_posts. open_cell Hc. read_attr. rewrite Hv.
    cbn [negb is_none]. rewrite resolve_new_list_eq. by apply touched_only_alloc_store.
  - unfold Comment_parent. open_cell Hc. read_attr. read_attr. rewrite Hv.
    cbn [negb is_none andb]. rewrite resolve_placeholder_eq.
    by apply touched_only_alloc_store.
  - unfold Comment_children. open_cell Hc. read_attr. read_attr. rewrite Hv.
    cbn [negb is_none andb]. rewrite andb_false_r, resolve_new_list_eq.
    by apply touched_only_alloc_store.
Qed.

Lemma lazy_access_touches_cell_only_witness :
  touched_only 1%positive "_children" detached_state
    (snd (Comment_children thread_api 1%positive detached_state)).
Proof.
  apply (proj2 (proj2 (proj2
           (lazy_access_touches_cell_only thread_api 1%positive detached_state
              ltac:(vm_compute; reflexivity) ltac:(vm_compute; reflexivity)))));
    vm_compute; reflexivity.
Defined.

(** ** Factories *)

Lemma dict_index_cases json k s :
  dict_index json k s =
  match json !! k with
  | Some x => (Ok x, s)
  | None => (Raise (KeyError k), s)
  end.
Proof. unfold dict_index. by destruct (json !! k). Qed.

(** X24. A factory changes nothing that existed: whether it succeeds or
    raises, [from_dict] performs no fetch and leaves every existing object
    as it was; the one object it may add sits at a new address. *)
Theorem from_dict_frame (strptime : string -> bool) (json_data : gmap string value)
    (voat_instance : value) (s : state) :
  heap (wld s) !! next_loc (wld s) = None /\
  same_except (next_loc (wld s)) s
    (snd (Submission_from_dict strptime json_data voat_instance s)) /\
  same_except (next_loc (wld s)) s
    (snd (Subverse_from_dict json_data voat_instance s)) /\
  same_except (next_loc (wld s)) s
    (snd (Comment_from_dict json_data voat_instance s)).
Proof.
  split; [apply next_loc_fresh|]. split; [|split].
  - unfold Submission_from_dict. rewrite bind_gets. cbn beta zeta.
    unfold bind at 1.
    match goal with
    | |- context [(if ?b then check_date strptime ?d else ret tt) s] =>
        assert (exists r, (if b then check_date strptime d else ret tt) s = (r, s))
          as [r Hr]
    end.
    { destruct (negb _); [|by eexists].
      unfold check_date. destruct (if truthy _ _ then _ else _); try by eexists.
      - destruct (strptime _); by eexists.
      - rewrite bind_gets. destruct (attrs_of _ _ !! "split"); by eexists. }
    rewrite Hr. destruct r as [[]|e]; [|apply same_except_refl].
    rewrite bind_gets. apply construct_frame.
  - unfold Subverse_from_dict. cbn zeta. apply construct_frame.
  - unfold Comment_from_dict.
    repeat (unfold bind at 1; rewrite dict_index_cases;
            match goal with
            | |- context [json_data !! ?k] => destruct (json_data !! k)
            end; [|apply same_except_refl]).
    unfold bind at 1, lift.
    destruct (py_sub _ _); [|apply same_except_refl].
    repeat (unfold bind at 1; rewrite dict_index_cases;
            match goal with
            | |- context [json_data !! ?k] => destruct (json_data !! k)
            end; [|apply same_except_refl]).
    apply construct_frame.
Qed.

(** X25. [Submission.from_dict] rejects a bad date before it builds
    anything: a non-empty date string that [strptime] does not accept
    raises [ValueError], a truthy date that is a number, a boolean or a
    list raises [AttributeError]; in both cases the state is unchanged. *)
Theorem Submission_from_dict_bad_date (strptime : string -> bool)
    (json_data : gmap string value) (voat_instance d : value) (s : state) :
  json_data !! "date" = Some d ->
  truthy (wld s) d = true ->
  (forall t, d = VStr t -> strptime (split_head t) = false ->
     Submission_from_dict strptime json_data voat_instance s = (Raise ValueError, s)) /\
  (isinstance_int d = true \/ is_list d = true ->
     Submission_from_dict strptime json_data voat_instance s
       = (Raise (AttributeError "split"), s)).
Proof.
  intros Hd Ht. unfold Submission_from_dict. rewrite bind_gets. cbn beta zeta.
  unfold dict_get. rewrite Hd. cbn [default from_option id]. rewrite Ht.
  split.
  - intros t -> Hs. cbn [negb is_none]. unfold bind at 1. unfold check_date.
    by rewrite Hs.
  - intros [Hi|Hl]; destruct d; try discriminate; reflexivity.
Qed.

Lemma Submission_from_dict_bad_date_witness :
  Submission_from_dict strptime_iso numeric_date_json VNone empty_state
    = (Raise (AttributeError "split"), empty_state).
Proof.
  apply (proj2 (Submission_from_dict_bad_date strptime_iso numeric_date_json VNone
                  (VInt 20150601) empty_state eq_refl eq_refl)).
  left. reflexivity.
Defined.

(** X26. The date of a [Submission] is stored as the payload gives it:
    for a non-empty date string whose part before the first dot [strptime]
    accepts, [from_dict] succeeds and the [date] attribute is that very
    string, fraction included; the parsed date is not kept. *)
Theorem Submission_from_dict_keeps_date (strptime : string -> bool)
    (json_data : gmap string value) (voat_instance : value) (t : string) (s : state) :
  json_data !! "date" = Some (VStr t) ->
  t <> "" ->
  strptime (split_head t) = true ->
  exists l s1,
    Submission_from_dict strptime json_data voat_instance s = (Ok (VObj Submission l), s1) /\
    attrs_of l (wld s1) !! "date" = Some (VStr t).
Proof.
  intros Hd Hne Hs. eexists _, _. split.
  - apply Submission_from_dict_ok. right. eauto.
  - rewrite attrs_of_with_object. unfold Submission_bag, dict_get. rewrite Hd.
    cbn [default from_option id truthy].
    destruct (String.eqb t "") eqn:E; [by apply String.eqb_eq in E|]. reflexivity.
Qed.

Lemma Submission_from_dict_keeps_date_witness :
  exists l s1,
    Submission_from_dict strptime_iso dated_json VNone empty_state
      = (Ok (VObj Submission l), s1) /\
    attrs_of l (wld s1) !! "date" = Some (VStr "2015-06-01T12:00:00.123").
Proof.
  apply (Submission_from_dict_keeps_date strptime_iso dated_json VNone
           "2015-06-01T12:00:00.123" empty_state); [reflexivity | discriminate | reflexivity].
Defined.

Lemma Comment_from_dict_ok_inv json v s r s1 :
  Comment_from_dict json v s = (Ok r, s1) ->
  Forall (fun k => is_Some (json !! k)) Comment_keys /\
  exists up down, json !! "upVotes" = Some up /\ json !! "downVotes" = Some down /\
                  isinstance_int up = true /\ isinstance_int down = true.
Proof.
  intros H. split; [by apply (Comment_from_dict_needs_keys _ _ _ _ _ H)|].
  unfold Comment_from_dict in H.
  apply bind_ok_inv in H as (x1 & t1 & _ & H).
  apply bind_ok_inv in H as (x2 & t2 & _ & H).
  apply bind_ok_inv in H as (x3 & t3 & _ & H).
  apply bind_ok_inv in H as (up & t4 & E4 & H). apply dict_index_inv in E4 as [E4 _].
  apply bind_ok_inv in H as (down & t5 & E5 & H). apply dict_index_inv in E5 as [E5 _].
  apply bind_ok_inv in H as (karma & t6 & E6 & _).
  exists up, down. repeat split; try done.
  - unfold lift, py_sub in E6. by destruct up.
  - unfold lift, py_sub in E6. destruct (as_int up); [|discriminate]. by destruct down.
Qed.

(** X27. [Comment.from_dict] succeeds only on a payload that has all nine
    fields. On such a payload with integers for [upVotes] and [downVotes]
    it succeeds, and the attributes of the comment are the fields of the
    payload under the names of the class: [comment_id] is [id], [author]
    is [userName], [parent_id] is [parentID], [submission_id] is
    [submissionID]; [date], [content] and [subverse] keep their names,
    [voat] is the handle given and [karma] the difference of the votes. *)
Theorem Comment_from_dict_fields (json_data : gmap string value)
    (voat_instance : value) (s : state) :
  ((exists r s1, Comment_from_dict json_data voat_instance s = (Ok r, s1)) ->
   Forall (fun k => is_Some (json_data !! k)) Comment_keys) /\
  (Forall (fun k => is_Some (json_data !! k)) Comment_keys ->
   forall up down m n,
     json_data !! "upVotes" = Some up -> json_data !! "downVotes" = Some down ->
     as_int up = Some m -> as_int down = Some n ->
     exists s1,
       Comment_from_dict json_data voat_instance s =
       (Ok (VObj Comment (next_loc (wld s))), s1) /\
       attrs_of (next_loc (wld s)) (wld s1) !! "comment_id" = json_data !! "id" /\
       attrs_of (next_loc (wld s)) (wld s1) !! "author" = json_data !! "userName" /\
       attrs_of (next_loc (wld s)) (wld s1) !! "parent_id" = json_data !! "parentID" /\
       attrs_of (next_loc (wld s)) (wld s1) !! "submission_id"
         = json_data !! "submissionID" /\
       attrs_of (next_loc (wld s)) (wld s1) !! "date" = json_data !! "date" /\
       attrs_of (next_loc (wld s)) (wld s1) !! "content" = json_data !! "content" /\
       attrs_of (next_loc (wld s)) (wld s1) !! "subverse" = json_data !! "subverse" /\
       attrs_of (next_loc (wld s)) (wld s1) !! "voat" = Some voat_instance /\
       attrs_of (next_loc (wld s)) (wld s1) !! "karma" = Some (VInt (m - n))).
Proof.
  split.
  - intros (r & s1 & H). by apply (Comment_from_dict_needs_keys _ _ _ _ _ H).
  - intros Hk up down m n Hu Hd Hm Hn.
    assert (py_sub up down = Ok (VInt (m - n))) as Hs
      by (unfold py_sub; by rewrite Hm, Hn).
    eexists. split; [by apply (Comment_from_dict_ok _ _ _ up down (VInt (m - n)))|].
    rewrite attrs_of_with_object. unfold Comment_bag, dict_get, Comment_keys in *.
    repeat match goal with
           | H : Forall _ (_ :: _) |- _ => apply Forall_cons in H as [[? ?] H]
           end.
    repeat match goal with H : json_data !! _ = Some _ |- _ => rewrite H end.
    repeat split; reflexivity.
Qed.

Lemma dom_Submission_bag json v w :
  dom (Submission_bag json v w) = Submission_attribute_names.
Proof.
  unfold Submission_bag, Submission_attribute_names.
  rewrite dom_list_to_map_L. cbn [fmap list_fmap fst]. set_solver.
Qed.

Lemma dom_Subverse_bag json v : dom (Subverse_bag json v) = Subverse_attribute_names.
Proof.
  unfold Subverse_bag, Subverse_attribute_names.
  rewrite dom_list_to_map_L. cbn [fmap list_fmap fst]. set_solver.
Qed.

Lemma dom_Comment_bag json v karma :
  dom (Comment_bag json v karma) = Comment_attribute_names.
Proof.
  unfold Comment_bag, Comment_attribute_names.
  rewrite dom_list_to_map_L. cbn [fmap list_fmap fst]. set_solver.
Qed.

(** X28. An entity built by a factory has the attributes of its class and
    no others: fields of the payload that the factory does not read, such
    as [downVotes] for a [Submission], leave no trace. *)
Theorem from_dict_attribute_names (strptime : string -> bool)
    (json_data : gmap string value) (voat_instance r : value) (s s1 : state) :
  (Submission_from_dict strptime json_data voat_instance s = (Ok r, s1) ->
   exists l, r = VObj Submission l /\
             dom (attrs_of l (wld s1)) = Submission_attribute_names) /\
  (Subverse_from_dict json_data voat_instance s = (Ok r, s1) ->
   exists l, r = VObj Subverse l /\
             dom (attrs_of l (wld s1)) = Subverse_attribute_names) /\
  (Comment_from_dict json_data voat_instance s = (Ok r, s1) ->
   exists l, r = VObj Comment l /\
             dom (attrs_of l (wld s1)) = Comment_attribute_names).
Proof.
  split; [|split].
  - intros H. unfold Submission_from_dict in H. rewrite bind_gets in H. cbn beta zeta in H.
    apply bind_ok_inv in H as ([] & s' & E & H).
    assert (s' = s) as ->.
    { destruct (negb _); [|by injection E].
      unfold check_date in E. destruct (if truthy _ _ then _ else _); try discriminate.
      - destruct (strptime _); [by injection E|discriminate].
      - rewrite bind_gets in E. by destruct (attrs_of _ _ !! "split"). }
    rewrite bind_gets in H. erewrite construct_ok in H by reflexivity.
    injection H as <- <-. eexists. split; [reflexivity|].
    rewrite attrs_of_with_object. apply dom_Submission_bag.
  - intros H. rewrite Subverse_from_dict_ok in H. injection H as <- <-.
    eexists. split; [reflexivity|]. rewrite attrs_of_with_object.
    apply dom_Subverse_bag.
  - intros H.
    pose proof (Comment_from_dict_ok_inv _ _ _ _ _ H) as (Hk & up & down & Hu & Hd & Hiu & Hid).
    assert (exists karma, py_sub up down = Ok karma) as [karma Hs].
    { unfold py_sub. destruct up, down; try discriminate; simpl; eauto. }
    rewrite (Comment_from_dict_ok _ _ _ up down karma Hk Hu Hd Hs) in H.
    injection H as <- <-. eexists. split; [reflexivity|]. rewrite attrs_of_with_object.
    apply dom_Comment_bag.
Qed.

Lemma from_dict_attribute_names_witness :
  exists l, VObj Subverse 1%positive = VObj Subverse l /\
            dom (attrs_of l (wld (snd (Subverse_from_dict dated_json VNone empty_state))))
            = Subverse_attribute_names.
Proof.
  apply (proj1 (proj2 (from_dict_attribute_names strptime_iso dated_json VNone
                         (VObj Subverse 1%positive) empty_state
                         (snd (Subverse_from_dict dated_json VNone empty_state))))).
  vm_compute. reflexivity.
Defined.

Lemma Comment_from_dict_fields_witness :
  exists s1,
    Comment_from_dict (comment_json 11 (VInt 10)) VVoat empty_state =
    (Ok (VObj Comment 1%positive), s1) /\
    attrs_of 1%positive (wld s1) !! "comment_id" = Some (VInt 11) /\
    attrs_of 1%positive (wld s1) !! "author" = Some (VStr "bob") /\
    attrs_of 1%positive (wld s1) !! "parent_id" = Some (VInt 10) /\
    attrs_of 1%positive (wld s1) !! "submission_id" = Some (VInt 7) /\
    attrs_of 1%positive (wld s1) !! "date" = Some (VStr "2015-06-01T12:00:00.5") /\
    attrs_of 1%positive (wld s1) !! "content" = Some (VStr "hello") /\
    attrs_of 1%positive (wld s1) !! "subverse" = Some (VStr "news") /\
    attrs_of 1%positive (wld s1) !! "voat" = Some VVoat /\
    attrs_of 1%positive (wld s1) !! "karma" = Some (VInt 3).
Proof.
  apply (proj2 (Comment_from_dict_fields (comment_json 11 (VInt 10)) VVoat empty_state)
           ltac:(unfold Comment_keys; repeat constructor; eexists; reflexivity)
           (VInt 5) (VInt 2) 5%Z 2%Z eq_refl eq_refl eq_refl eq_refl).
Defined.

(** X29. On a payload that lacks a field, [Comment.from_dict] raises
    [KeyError] for the first field it lacks, in the order [date], [id],
    [content], [upVotes], [downVotes], [subverse], [userName], [parentID],
    [submissionID], provided the votes, when both are there, are numbers;
    the state is unchanged. *)
Theorem Comment_from_dict_missing_key (json_data : gmap string value)
    (voat_instance : value) (s : state) (k : string) :
  first_missing json_data Comment_keys = Some k ->
  (forall up down,
     json_data !! "upVotes" = Some up -> json_data !! "downVotes" = Some down ->
     isinstance_int up = true /\ isinstance_int down = true) ->
  Comment_from_dict json_data voat_instance s = (Raise (KeyError k), s).
Proof.
  unfold first_missing, Comment_keys, Comment_from_dict. cbn [List.find].
  intros Hk Hv. revert Hk.
  do 5 (unfold bind at 1; rewrite dict_index_cases;
        match goal with
        | |- context [json_data !! ?key] =>
            destruct (json_data !! key) eqn:?; [|by intros [= <-]]
        end).
  unfold bind at 1, lift.
  match goal with
  | Hu : json_data !! "upVotes" = Some ?up, Hd : json_data !! "downVotes" = Some ?down |- _ =>
      destruct (Hv up down eq_refl eq_refl) as [Hiu Hid];
      assert (exists karma, py_sub up down = Ok karma) as [karma ->]
        by (unfold py_sub; destruct up, down; try discriminate; simpl; eauto)
  end.
  do 4 (unfold bind at 1; rewrite dict_index_cases;
        match goal with
        | |- context [json_data !! ?key] =>
            destruct (json_data !! key) eqn:?; [|by intros [= <-]]
        end).
  discriminate.
Qed.

Lemma Comment_from_dict_missing_key_witness :
  Comment_from_dict votes_json VNone empty_state = (Raise (KeyError "date"), empty_state).
Proof.
  apply (Comment_from_dict_missing_key votes_json VNone empty_state "date" eq_refl).
  intros up down Hu Hd. vm_compute in Hu, Hd.
  injection Hu as <-. injection Hd as <-. split; reflexivity.
Defined.

(** X30. A factory and the relation of its entity compose: on the entity
    that [from_dict] builds with the handle attached, the first access of
    the relation fetches with the fields of the payload: [comments] with
    [id] ([-1] when missing, not the [0] of the property) and [subverse]
    (the empty string when missing), [posts] with [name] (the empty string
    when missing), [parent] with [parentID] when it is not [None]. *)
Theorem from_dict_then_relation (strptime : string -> bool) (api : Voat)
    (json_data : gmap string value) (s : state) :
  (date_accepted strptime json_data (wld s) ->
   exists l s1,
     Submission_from_dict strptime json_data VVoat s = (Ok (VObj Submission l), s1) /\
     calls (snd (Submission_comments api l s1)) =
     (calls s ++ [CallFetchComments (dict_get json_data "id" (VInt (-1)))
                                    (dict_get json_data "subverse" (VStr ""))])%list) /\
  (exists l s1,
     Subverse_from_dict json_data VVoat s = (Ok (VObj Subverse l), s1) /\
     calls (snd (Subverse_posts api l s1)) =
     (calls s ++ [CallGetSubversePosts (dict_get json_data "name" (VStr ""))])%list) /\
  (forall pid,
     (exists r s1, Comment_from_dict json_data VVoat s = (Ok r, s1)) ->
     json_data !! "parentID" = Some pid -> pid <> VNone ->
     exists l s1,
       Comment_from_dict json_data VVoat s = (Ok (VObj Comment l), s1) /\
       calls (snd (Comment_parent api l s1)) = (calls s ++ [CallGetComment pid])%list).
Proof.
  split; [|split].
  - intros Hd. eexists _, _. split; [by apply Submission_from_dict_ok|].
    rewrite Submission_comments_fetch.
    + cbn zeta. rewrite attrs_of_with_object.
      by destruct (fetch_comments api _ _ _) as [[r|e] w'].
    + unfold unresolved. by rewrite attrs_of_with_object.
    + by rewrite attrs_of_with_object.
  - eexists _, _. split; [apply Subverse_from_dict_ok|].
    rewrite Subverse_posts_fetch with (name := dict_get json_data "name" (VStr "")).
    + cbn zeta. by destruct (get_subverse_posts api _ _) as [[r|e] w'].
    + unfold unresolved. by rewrite attrs_of_with_object.
    + by rewrite attrs_of_with_object.
    + by rewrite attrs_of_with_object.
  - intros pid (r0 & s0 & Hok) Hp Hn.
    apply Comment_from_dict_ok_inv in Hok as (Hk & up & down & Hu & Hd & Hiu & Hid).
    assert (exists karma, py_sub up down = Ok karma) as [karma Hs].
    { unfold py_sub. destruct up, down; try discriminate; simpl; eauto. }
    eexists _, _.
    split; [by apply (Comment_from_dict_ok _ _ _ up down karma)|].
    set (l := next_loc (wld s)).
    set (s1 := with_object l (OInst (Comment_bag json_data VVoat karma)) s).
    assert (unresolved "_parent" l s1) as Hc.
    { unfold unresolved, s1. by rewrite attrs_of_with_object. }
    assert (attrs_of l (wld s1) !! "voat" = Some VVoat) as Hv.
    { unfold s1. by rewrite attrs_of_with_object. }
    assert (attrs_of l (wld s1) !! "parent_id" = Some pid) as Hpid.
    { unfold s1. rewrite attrs_of_with_object. unfold Comment_bag, dict_get.
      rewrite Hp. reflexivity. }
    destruct (get_comment api pid (wld s1)) as [[r|e] w'] eqn:Hf.
    + by rewrite (Comment_parent_fetch_ok api l s1 pid r w' Hc Hv Hpid Hn Hf).
    + rewrite (Comment_parent_fetch_raises api l s1 pid e w' Hc Hv Hpid Hn Hf).
      match goal with
      | |- context [bind _ _ ?s0] =>
          destruct (resolve_placeholder l s0) as (s2 & -> & Hk2 & _)
      end.
      exact Hk2.
Qed.

Lemma from_dict_then_relation_witness :
  exists l s1,
    Submission_from_dict strptime_iso votes_json VVoat empty_state
      = (Ok (VObj Submission l), s1) /\
    calls (snd (Submission_comments thread_api l s1)) =
    (calls empty_state ++ [CallFetchComments (dict_get votes_json "id" (VInt (-1)))
                                             (dict_get votes_json "subverse" (VStr ""))])%list.
Proof.
  apply (proj1 (from_dict_then_relation strptime_iso thread_api votes_json empty_state)).
  left. reflexivity.
Defined.
